(** * Resource API service (src/src/server.js)

    A shallow embedding of the Express route handlers of [server.js] and of
    the Mongoose models they call, followed by the properties of the
    handlers.

    - Part 1: JavaScript values, requests and responses.
    - Part 2: the store interface the handlers are written against
      (the Mongoose calls that occur in [server.js]).
    - Part 3: the twelve route handlers, one definition per route.
    - Part 4: the three schemas of [server.js] and an in-memory store
      that interprets them the way Mongoose and MongoDB do.
    - Part 5: the vocabulary of the statements.
    - Parts 6 and 7: properties of the handlers on every store and on the
      in-memory store.
    - Part 8: the handlers on concrete requests.
    - Part 9: the store across requests: an invariant of the in-memory
      store, writes followed by reads, comments, what no handler does.
    - Part 10: the theorems of Part 9 on concrete requests. *)

From stdpp Require Import gmap strings list fin_maps pretty.

Set Warnings "-register-all,-clear-no-such-hyp".
Open Scope string_scope.

(* ===================================================================== *)
(** ** 1. Values, requests, responses *)
(* ===================================================================== *)

(** Values that reach a handler: what [bodyParser.json()] produces, plus
    [undefined] for a property that is absent.  Numbers are the integer
    valued ones; the handlers only test a number for truthiness and hand it
    to the store. *)
Inductive value :=
| VUndefined
| VNull
| VBool (b : bool)
| VNum (n : Z)
| VStr (s : string)
| VArr (l : list value)
| VObj (o : list (string * value)).

(** An object literal [{ k1: v1, k2: v2 }], keys in the order written. *)
Abbreviation obj := (list (string * value)).

(** JavaScript truthiness ([!v] is [negb (truthy v)]).  Every array and every
    object is truthy, the empty ones included. *)
Definition truthy (v : value) : bool :=
  match v with
  | VUndefined | VNull => false
  | VBool b => b
  | VNum n => negb (n =? 0)%Z
  | VStr s => negb (String.eqb s "")
  | VArr _ | VObj _ => true
  end.

(** Stored (BSON) values: what a Mongoose document holds after casting. *)
Inductive bson :=
| BNull
| BInt (n : Z)
| BStr (s : string)
| BDate (ms : Z)
| BId (n : nat)
| BArr (l : list bson)
| BDoc (o : list (string * bson)).

(** A top-level document: its paths, [_id] and [__v] included. *)
Abbreviation doc := (gmap string bson).

(** [req.params] and [req.body].  Express gives every [:name] of a matched
    route a string; the body is the parsed JSON object. *)
Record request := {
  params : gmap string string;
  body : gmap string value
}.

(** [req.params.k] *)
Definition param (req : request) (k : string) : string :=
  default "" (params req !! k).

(** [req.body.k], [undefined] when the body has no such property. *)
Definition field (req : request) (k : string) : value :=
  default VUndefined (body req !! k).

(** The JSON a handler answers with. *)
Inductive payload :=
| ErrorBody (error : string) (details : option string)
| DocBody (d : doc)
| DocsBody (ds : list doc).

Record response := { status : nat; json : payload }.

(* ===================================================================== *)
(** ** 2. The store interface *)
(* ===================================================================== *)

(** The three models of [server.js] (lines 61-63). *)
Inductive model := Space | Project | Task.

(** A query filter [{ k1: s1, k2: s2 }]; the handlers only build filters
    from path parameters, which are strings. *)
Abbreviation query := (list (string * string)).

(** The two update documents the handlers build. *)
Inductive update :=
| USet (o : obj)                    (* { $set: o } *)
| UPush (path : string) (o : obj).  (* { $push: { path: o } } *)

(** A store call either returns or throws an error with a message. *)
Inductive result (A : Type) :=
| Ok (a : A)
| Throw (message : string).
Arguments Ok {A} a.
Arguments Throw {A} message.

(** The Mongoose calls made by the handlers.  Reads leave the store as it
    is; writes return the store they leave behind, whether they throw or
    not. *)
Class Store (S : Type) := {
  (* M.findOne(q) *)
  Model_findOne : model → query → S → result (option doc);
  (* M.find(q) *)
  Model_find : model → query → S → result (list doc);
  (* d = new M(o); d.save(); d *)
  Model_save : model → obj → S → result doc * S;
  (* M.findOneAndUpdate(q, u, { new: true }) *)
  Model_findOneAndUpdate : model → query → update → S → result (option doc) * S;
  (* d.path.push(o); d.save(); d *)
  Document_push_save : model → doc → string → obj → S → result doc * S
}.

(** The clock, and the parts of the JavaScript runtime the casts of the
    store depend on. *)
Record runtime := {
  (* Date.now() *)
  Date_now : Z;
  (* String(n) for a number n *)
  Number_toString : Z → string;
  (* the time value the Date cast of the store gives a non-empty string, an
     array or an object v (it goes through new Date, whose parsing is left to
     the implementation); None when the date is invalid *)
  Date_cast : value → option Z
}.

(* ===================================================================== *)
(** ** 3. The route handlers *)
(* ===================================================================== *)

Section Handlers.
Context {S : Type} `{!Store S}.
Variable rt : runtime.

(** The body of a [try] block: runs on the store, returns or throws. *)
Definition M (A : Type) : Type := S → result A * S.

Definition ret {A} (a : A) : M A := λ st, (Ok a, st).

Definition bind {A B} (m : M A) (k : A → M B) : M B :=
  λ st, match m st with
        | (Ok a, st') => k a st'
        | (Throw e, st') => (Throw e, st')
        end.

(** [await] of a read. *)
Definition await {A} (r : S → result A) : M A := λ st, (r st, st).

(** [try { b } catch (err) { h(err.message) }] *)
Definition try_catch (b : M response) (h : string → response) : S → response * S :=
  λ st, match b st with
        | (Ok r, st') => (r, st')
        | (Throw e, st') => (h e, st')
        end.

(** [res.status(c).json(p)] and [res.json(p)] *)
Definition res_status (c : nat) (p : payload) : response := {| status := c; json := p |}.
Definition res_json (p : payload) : response := res_status 200 p.

Notation "'let!' x ':=' m 'in' k" := (bind m (λ x, k))
  (at level 10, x name, m at level 100, k at level 200, only parsing).
Notation "'try' b 'catch' h" := (try_catch b h)
  (at level 10, b at level 100, h at level 200, only parsing).

(** GET /api/space/:SpCode (lines 68-76) *)
Definition getSpace (req : request) : S → response * S :=
  try
    let! space := await (Model_findOne Space [("SpCode", param req "SpCode")]) in
    match space with
    | None => ret (res_status 404 (ErrorBody "Space not found" None))
    | Some space => ret (res_json (DocBody space))
    end
  catch λ _, res_status 500 (ErrorBody "Error fetching Space details" None).

(** POST /api/space/create (lines 79-93) *)
Definition createSpace (req : request) : S → response * S :=
  try
    let SpCode := field req "SpCode" in
    let name := field req "name" in
    if negb (truthy SpCode) || negb (truthy name) then
      ret (res_status 400 (ErrorBody "Missing required fields" None))
    else
      let! newSpace := Model_save Space [("SpCode", SpCode); ("name", name)] in
      ret (res_status 201 (DocBody newSpace))
  catch λ message, res_status 400 (ErrorBody "Error creating Space" (Some message)).

(** GET /api/space/:SpCode/projects (lines 96-103) *)
Definition listProjects (req : request) : S → response * S :=
  try
    let! projects := await (Model_find Project [("SpCode", param req "SpCode")]) in
    ret (res_json (DocsBody projects))
  catch λ _, res_status 500 (ErrorBody "Failed to fetch projects" None).

(** GET /api/space/:SpCode/projects/:projectCode (lines 106-114) *)
Definition getProject (req : request) : S → response * S :=
  try
    let! project := await (Model_findOne Project
        [("SpCode", param req "SpCode"); ("projectCode", param req "projectCode")]) in
    match project with
    | None => ret (res_status 404 (ErrorBody "Project not found" None))
    | Some project => ret (res_json (DocBody project))
    end
  catch λ _, res_status 500 (ErrorBody "Error fetching project details" None).

(** POST /api/space/:SpCode/projects/create (lines 117-131) *)
Definition createProject (req : request) : S → response * S :=
  try
    let SpCode := field req "SpCode" in
    let projectCode := field req "projectCode" in
    let name := field req "name" in
    let description := field req "description" in
    let teamLead := field req "teamLead" in
    let members := field req "members" in
    let status := field req "status" in
    if negb (truthy SpCode) || negb (truthy projectCode) || negb (truthy name)
       || negb (truthy description) || negb (truthy teamLead) || negb (truthy members)
       || negb (truthy status) then
      ret (res_status 400 (ErrorBody "Missing required fields" None))
    else
      let! newProject := Model_save Project
          [("SpCode", SpCode); ("projectCode", projectCode); ("name", name);
           ("description", description); ("teamLead", teamLead); ("members", members);
           ("status", status)] in
      ret (res_status 201 (DocBody newProject))
  catch λ message, res_status 400 (ErrorBody "Error creating project" (Some message)).

(** PUT /api/space/:SpCode/projects/:projectCode/update (lines 134-153) *)
Definition updateProject (req : request) : S → response * S :=
  try
    let name := field req "name" in
    let description := field req "description" in
    let teamLead := field req "teamLead" in
    let members := field req "members" in
    let status := field req "status" in
    if negb (truthy name) && negb (truthy description) && negb (truthy teamLead)
       && negb (truthy members) && negb (truthy status) then
      ret (res_status 400 (ErrorBody "No fields to update" None))
    else
      let! updatedProject := Model_findOneAndUpdate Project
          [("SpCode", param req "SpCode"); ("projectCode", param req "projectCode")]
          (USet [("name", name); ("description", description); ("teamLead", teamLead);
                 ("members", members); ("status", status)]) in
      match updatedProject with
      | None => ret (res_status 404 (ErrorBody "Project not found" None))
      | Some updatedProject => ret (res_json (DocBody updatedProject))
      end
  catch λ message, res_status 400 (ErrorBody "Error updating project" (Some message)).

(** GET /api/space/:SpCode/tasks (lines 156-163) *)
Definition listTasks (req : request) : S → response * S :=
  try
    let! tasks := await (Model_find Task [("SpCode", param req "SpCode")]) in
    ret (res_json (DocsBody tasks))
  catch λ _, res_status 500 (ErrorBody "Failed to fetch tasks" None).

(** GET /api/space/:SpCode/tasks/:taskId (lines 166-174) *)
Definition getTask (req : request) : S → response * S :=
  try
    let! task := await (Model_findOne Task
        [("SpCode", param req "SpCode"); ("taskId", param req "taskId")]) in
    match task with
    | None => ret (res_status 404 (ErrorBody "Task not found" None))
    | Some task => ret (res_json (DocBody task))
    end
  catch λ _, res_status 500 (ErrorBody "Error fetching task details" None).

(** POST /api/space/:SpCode/tasks/create (lines 177-192) *)
Definition createTask (req : request) : S → response * S :=
  try
    let SpCode := field req "SpCode" in
    let projectId := field req "projectId" in
    let taskId := field req "taskId" in
    let title := field req "title" in
    let status := field req "status" in
    let assignedTo := field req "assignedTo" in
    let priority := field req "priority" in
    let assignedBy := field req "assignedBy" in
    let description := field req "description" in
    let deadline := field req "deadline" in
    if negb (truthy SpCode) || negb (truthy projectId) || negb (truthy taskId)
       || negb (truthy title) || negb (truthy status) || negb (truthy assignedTo)
       || negb (truthy priority) || negb (truthy assignedBy) || negb (truthy description)
       || negb (truthy deadline) then
      ret (res_status 400 (ErrorBody "Missing required fields" None))
    else
      let! newTask := Model_save Task
          [("SpCode", SpCode); ("projectId", projectId); ("taskId", taskId);
           ("title", title); ("status", status); ("assignedTo", assignedTo);
           ("priority", priority); ("assignedBy", assignedBy);
           ("description", description); ("deadline", deadline)] in
      ret (res_status 201 (DocBody newTask))
  catch λ message, res_status 500 (ErrorBody "Error creating task" (Some message)).

(** PUT /api/space/:SpCode/tasks/:taskId/update (lines 195-214) *)
Definition updateTask (req : request) : S → response * S :=
  try
    let title := field req "title" in
    let status := field req "status" in
    let assignedTo := field req "assignedTo" in
    let priority := field req "priority" in
    let assignedBy := field req "assignedBy" in
    let description := field req "description" in
    let deadline := field req "deadline" in
    if negb (truthy title) && negb (truthy status) && negb (truthy assignedTo)
       && negb (truthy priority) && negb (truthy assignedBy) && negb (truthy description)
       && negb (truthy deadline) then
      ret (res_status 400 (ErrorBody "No fields to update" None))
    else
      let! updatedTask := Model_findOneAndUpdate Task
          [("SpCode", param req "SpCode"); ("taskId", param req "taskId")]
          (USet [("title", title); ("status", status); ("assignedTo", assignedTo);
                 ("priority", priority); ("assignedBy", assignedBy);
                 ("description", description); ("deadline", deadline)]) in
      match updatedTask with
      | None => ret (res_status 404 (ErrorBody "Task not found" None))
      | Some updatedTask => ret (res_json (DocBody updatedTask))
      end
  catch λ message, res_status 400 (ErrorBody "Error updating task" (Some message)).

(** POST /api/space/:SpCode/projects/:projectCode/comments (lines 217-236) *)
Definition addProjectComment (req : request) : S → response * S :=
  try
    let comment := field req "comment" in
    if negb (truthy comment) then
      ret (res_status 400 (ErrorBody "Comment is required" None))
    else
      let! project := Model_findOneAndUpdate Project
          [("SpCode", param req "SpCode"); ("projectCode", param req "projectCode")]
          (UPush "comments" [("comment", comment); ("date", VNum (Date_now rt))]) in
      match project with
      | None => ret (res_status 404 (ErrorBody "Project not found" None))
      | Some project => ret (res_json (DocBody project))
      end
  catch λ message,
    res_status 400 (ErrorBody "Error adding comment to project" (Some message)).

(** POST /api/space/:SpCode/tasks/:taskId/comments (lines 239-257) *)
Definition addTaskComment (req : request) : S → response * S :=
  try
    let author := field req "author" in
    let text := field req "text" in
    if negb (truthy author) || negb (truthy text) then
      ret (res_status 400 (ErrorBody "Author, and text are required" None))
    else
      let! task := await (Model_findOne Task
          [("SpCode", param req "SpCode"); ("taskId", param req "taskId")]) in
      match task with
      | None => ret (res_status 404 (ErrorBody "Task not found" None))
      | Some task =>
          let! task := Document_push_save Task task "comments"
              [("author", author); ("text", text); ("timestamp", VNum (Date_now rt))] in
          ret (res_json (DocBody task))
      end
  catch λ message,
    res_status 400 (ErrorBody "Error adding comment to task" (Some message)).

End Handlers.

(* ===================================================================== *)
(** ** 4. The schemas and an in-memory store *)
(* ===================================================================== *)

(** *** 4.1 Schemas (server.js, lines 21-58) *)

Inductive leaf := String_ | Date_.

(** [{ type: T, required: r, unique: u, default: Date.now }] *)
Record schematype := {
  type : leaf;
  required : bool;
  unique : bool;
  default_Date_now : bool
}.

Inductive pathspec :=
| Leaf (t : schematype)                         (* k: { type: T, ... } *)
| ArrayOf (t : schematype)                      (* k: [{ type: T }] *)
| DocArray (sub : list (string * schematype)).  (* k: [{ k1: {...}, ... }] *)

Abbreviation schema := (list (string * pathspec)).

Definition plain (t : leaf) : schematype :=
  {| type := t; required := false; unique := false; default_Date_now := false |}.
Definition reqd (t : leaf) : schematype :=
  {| type := t; required := true; unique := false; default_Date_now := false |}.
Definition reqd_unique (t : leaf) : schematype :=
  {| type := t; required := true; unique := true; default_Date_now := false |}.
Definition default_now (t : leaf) : schematype :=
  {| type := t; required := false; unique := false; default_Date_now := true |}.

Definition SpaceSchema : schema :=
  [ ("SpCode", Leaf (reqd_unique String_));
    ("name", Leaf (reqd String_)) ].

Definition projectSchema : schema :=
  [ ("SpCode", Leaf (reqd String_));
    ("projectCode", Leaf (reqd_unique String_));
    ("name", Leaf (reqd String_));
    ("description", Leaf (reqd String_));
    ("status", Leaf (reqd String_));
    ("teamLead", Leaf (reqd String_));
    ("members", ArrayOf (plain String_));
    ("comments", DocArray [ ("comment", reqd String_);
                            ("date", default_now Date_) ]) ].

Definition taskSchema : schema :=
  [ ("SpCode", Leaf (reqd String_));
    ("projectId", Leaf (reqd String_));
    ("taskId", Leaf (reqd_unique String_));
    ("title", Leaf (reqd String_));
    ("status", Leaf (reqd String_));
    ("assignedTo", Leaf (reqd String_));
    ("priority", Leaf (reqd String_));
    ("assignedBy", Leaf (reqd String_));
    ("description", Leaf (reqd String_));
    ("deadline", Leaf (reqd Date_));
    ("comments", DocArray [ ("author", plain String_);
                            ("text", plain String_);
                            ("timestamp", default_now Date_) ]) ].

(** [mongoose.model(name, schema)] (lines 61-63) *)
Definition schema_of (m : model) : schema :=
  match m with
  | Space => SpaceSchema
  | Project => projectSchema
  | Task => taskSchema
  end.

Definition model_name (m : model) : string :=
  match m with
  | Space => "Spaces"
  | Project => "Projects"
  | Task => "Tasks"
  end.

(** *** 4.2 The store

    Mongoose and MongoDB are not part of the repository.  The store below
    follows their documented behaviour for the calls of [server.js]:
    casting to the schema types, [required] validation on [save], unique
    indexes, [findOneAndUpdate] without validators, strict mode (paths
    outside the schema are dropped).  Error messages are abbreviated, and an
    [ObjectId] is a number drawn from a counter. *)

Record mem := {
  spaces : list doc;
  projects : list doc;
  tasks : list doc;
  next_id : nat
}.

Definition coll (m : model) (st : mem) : list doc :=
  match m with
  | Space => spaces st
  | Project => projects st
  | Task => tasks st
  end.

Definition set_coll (m : model) (l : list doc) (n : nat) (st : mem) : mem :=
  match m with
  | Space => {| spaces := l; projects := projects st; tasks := tasks st; next_id := n |}
  | Project => {| spaces := spaces st; projects := l; tasks := tasks st; next_id := n |}
  | Task => {| spaces := spaces st; projects := projects st; tasks := l; next_id := n |}
  end.

Definition empty_mem : mem :=
  {| spaces := []; projects := []; tasks := []; next_id := 0 |}.

(** [o.k] for an object literal: [undefined] when [o] has no key [k]. *)
Fixpoint prop (o : obj) (k : string) : value :=
  match o with
  | [] => VUndefined
  | (k', v) :: o' => if String.eqb k k' then v else prop o' k
  end.

(** Lookup in a schema or sub-schema. *)
Fixpoint assoc {A} (l : list (string * A)) (k : string) : option A :=
  match l with
  | [] => None
  | (k', a) :: l' => if String.eqb k k' then Some a else assoc l' k
  end.

Definition is_undefined (v : value) : bool :=
  match v with VUndefined => true | _ => false end.

(** The document has the string [s] at path [k]. *)
Definition has_str (d : doc) (k s : string) : bool :=
  match d !! k with
  | Some (BStr s') => String.eqb s s'
  | _ => false
  end.

(** A document matches a filter when it has every string of the filter. *)
Definition matches (q : query) (d : doc) : bool :=
  forallb (λ '(k, s), has_str d k s) q.

(** Equality of index keys (scalars). *)
Definition same_key (a b : bson) : bool :=
  match a, b with
  | BNull, BNull => true
  | BInt x, BInt y => (x =? y)%Z
  | BStr x, BStr y => String.eqb x y
  | BDate x, BDate y => (x =? y)%Z
  | BId x, BId y => (x =? y)%nat
  | _, _ => false
  end.

Section MemStore.
Variable rt : runtime.
(** Mongoose 6 and later drop the keys of an update whose value is
    [undefined]; Mongoose 5 does so only under its [omitUndefined] option
    and otherwise stores [null] for them. *)
Variable omitUndefined : bool.

(** Cast to [String]: strings as they are, numbers and booleans through
    [toString], an object through a string [_id]; arrays and other objects
    fail. *)
Definition castString (v : value) : option bson :=
  match v with
  | VUndefined | VNull => Some BNull
  | VStr s => Some (BStr s)
  | VNum n => Some (BStr (Number_toString rt n))
  | VBool b => Some (BStr (if b then "true" else "false"))
  | VArr _ => None
  | VObj o =>
      match prop o "_id" with
      | VStr s => if String.eqb s "" then None else Some (BStr s)
      | _ => None
      end
  end.

(** A time value is valid within 8.64e15 ms of the epoch. *)
Definition valid_time (ms : Z) : bool :=
  ((-8640000000000000 <=? ms) && (ms <=? 8640000000000000))%Z.

(** Cast to [Date]: [null] and the empty string give [null], a boolean
    fails, a number is a time value, anything else goes through the
    runtime's [Date]. *)
Definition castDate (v : value) : option bson :=
  match v with
  | VUndefined | VNull => Some BNull
  | VBool _ => None
  | VNum n => if valid_time n then Some (BDate n) else None
  | VStr s => if String.eqb s "" then Some BNull else BDate <$> Date_cast rt v
  | VArr _ | VObj _ => BDate <$> Date_cast rt v
  end.

Definition cast_leaf (t : leaf) (v : value) : option bson :=
  match t with
  | String_ => castString v
  | Date_ => castDate v
  end.

(** Cast to an array of [t]; a value that is not an array is wrapped. *)
Definition cast_array (t : leaf) (v : value) : option bson :=
  match v with
  | VNull => Some BNull
  | VArr l => BArr <$> mapM (cast_leaf t) l
  | _ => (λ b, BArr [b]) <$> cast_leaf t v
  end.

(** The paths of a subdocument, in schema order; an absent path with
    [default: Date.now] gets the clock, any other absent path is left out. *)
Fixpoint cast_paths (sub : list (string * schematype)) (o : obj)
    : option (list (string * bson)) :=
  match sub with
  | [] => Some []
  | (k, t) :: sub' =>
      rest ← cast_paths sub' o;
      if is_undefined (prop o k) then
        if default_Date_now t then Some ((k, BDate (Date_now rt)) :: rest)
        else Some rest
      else
        b ← cast_leaf (type t) (prop o k);
        Some ((k, b) :: rest)
  end.

(** Cast to a subdocument with [_id] [id]; only an object can be cast. *)
Definition cast_subdoc (sub : list (string * schematype)) (id : nat) (v : value)
    : option bson :=
  match v with
  | VObj o => (λ l, BDoc (l ++ [("_id", BId id)])) <$> cast_paths sub o
  | _ => None
  end.

(** Cast the elements of a document array, drawing ids from [id] on. *)
Fixpoint cast_subdocs (sub : list (string * schematype)) (id : nat) (l : list value)
    : option (list bson) :=
  match l with
  | [] => Some []
  | v :: l' =>
      b ← cast_subdoc sub id v;
      bs ← cast_subdocs sub (S id) l';
      Some (b :: bs)
  end.

Definition cast_docarray (sub : list (string * schematype)) (id : nat) (v : value)
    : option (bson * nat) :=
  match v with
  | VNull => Some (BNull, id)
  | VArr l => (λ bs, (BArr bs, id + length l)) <$> cast_subdocs sub id l
  | _ => (λ b, (BArr [b], S id)) <$> cast_subdoc sub id v
  end.

(** Cast a value for the path [p]; ids are drawn from [id] on, the next
    free id is returned. *)
Definition cast_path (p : pathspec) (id : nat) (v : value) : option (bson * nat) :=
  match p with
  | Leaf t => (λ b, (b, id)) <$> cast_leaf (type t) v
  | ArrayOf t => (λ b, (b, id)) <$> cast_array (type t) v
  | DocArray sub => cast_docarray sub id v
  end.

(** What a path holds when the constructor is given no value for it. *)
Definition absent_path (p : pathspec) : option bson :=
  match p with
  | Leaf t => if default_Date_now t then Some (BDate (Date_now rt)) else None
  | ArrayOf _ | DocArray _ => Some (BArr [])
  end.

(** [new M(o)]: the paths of the schema are cast from [o]; keys of [o]
    outside the schema are dropped.  None on a cast error. *)
Fixpoint construct (sch : schema) (o : obj) (d : doc) (id : nat) : option (doc * nat) :=
  match sch with
  | [] => Some (d, id)
  | (k, p) :: sch' =>
      if is_undefined (prop o k) then
        construct sch' o (from_option (λ b, <[k:=b]> d) d (absent_path p)) id
      else
        '(b, id') ← cast_path p id (prop o k);
        construct sch' o (<[k:=b]> d) id'
  end.

(** The [required] validator: a non-empty string, a date. *)
Definition present (t : leaf) (b : option bson) : bool :=
  match t, b with
  | String_, Some (BStr s) => negb (String.eqb s "")
  | Date_, Some (BDate _) => true
  | _, _ => false
  end.

Definition valid_leaf (t : schematype) (b : option bson) : bool :=
  implb (required t) (present (type t) b).

Definition valid_sub (sub : list (string * schematype)) (b : bson) : bool :=
  match b with
  | BDoc o => forallb (λ '(k, t), valid_leaf t (assoc o k)) sub
  | _ => true
  end.

Definition valid_path (d : doc) (kp : string * pathspec) : bool :=
  match kp.2 with
  | Leaf t => valid_leaf t (d !! kp.1)
  | ArrayOf t =>
      match d !! kp.1 with
      | Some (BArr l) => forallb (λ b, valid_leaf t (Some b)) l
      | _ => true
      end
  | DocArray sub =>
      match d !! kp.1 with
      | Some (BArr l) => forallb (valid_sub sub) l
      | _ => true
      end
  end.

(** Validation on [save]. *)
Definition validate (sch : schema) (d : doc) : bool :=
  forallb (valid_path d) sch.

(** The paths with a unique index. *)
Definition unique_paths (sch : schema) : list string :=
  omap (λ '(k, p), match p with
                   | Leaf t => if unique t then Some k else None
                   | _ => None
                   end) sch.

Definition same_at (k : string) (d d' : doc) : bool :=
  match d !! k, d' !! k with
  | Some a, Some b => same_key a b
  | _, _ => false
  end.

(** Some stored document has the key of [d] on a unique path. *)
Definition duplicate (sch : schema) (l : list doc) (d : doc) : bool :=
  existsb (λ k, existsb (same_at k d) l) (unique_paths sch).

(** [M.findOne(q)]: the first match in insertion order. *)
Definition mem_findOne (m : model) (q : query) (st : mem) : result (option doc) :=
  Ok (List.find (matches q) (coll m st)).

(** [M.find(q)] *)
Definition mem_find (m : model) (q : query) (st : mem) : result (list doc) :=
  Ok (List.filter (matches q) (coll m st)).

(** [new M(o)] followed by [save()]: cast, validate, insert under the
    unique indexes.  A failed save leaves the store as it was. *)
Definition mem_save (m : model) (o : obj) (st : mem) : result doc * mem :=
  let id := next_id st in
  match construct (schema_of m) o {["_id" := BId id]} (S id) with
  | None => (Throw (model_name m ++ " validation failed: cast failed"), st)
  | Some (d, n) =>
      if negb (validate (schema_of m) d) then
        (Throw (model_name m ++ " validation failed: a required path is missing"), st)
      else if duplicate (schema_of m) (coll m st) d then
        (Throw ("E11000 duplicate key error collection: " ++ model_name m), st)
      else
        let d' := <["__v" := BInt 0]> d in
        (Ok d', set_coll m (coll m st ++ [d']) n st)
  end.

(** An update after casting. *)
Inductive change :=
| CSet (l : list (string * bson))
| CPush (k : string) (b : bson).

(** Cast the keys of [{ $set: o }]: keys outside the schema are dropped,
    an [undefined] value is dropped or becomes [null] (see
    [omitUndefined]), any other value is cast for its path. *)
Fixpoint cast_set (sch : schema) (o : obj) (id : nat)
    : option (list (string * bson) * nat) :=
  match o with
  | [] => Some ([], id)
  | (k, v) :: o' =>
      match assoc sch k with
      | None => cast_set sch o' id
      | Some p =>
          if is_undefined v then
            '(l, id') ← cast_set sch o' id;
            Some (if omitUndefined then l else (k, BNull) :: l, id')
          else
            '(b, id') ← cast_path p id v;
            '(l, id'') ← cast_set sch o' id';
            Some ((k, b) :: l, id'')
      end
  end.

Definition cast_update (sch : schema) (u : update) (id : nat) : option (change * nat) :=
  match u with
  | USet o => (λ '(l, n), (CSet l, n)) <$> cast_set sch o id
  | UPush k o =>
      match assoc sch k with
      | Some (DocArray sub) => (λ b, (CPush k b, S id)) <$> cast_subdoc sub id (VObj o)
      | Some (ArrayOf t) => (λ b, (CPush k b, id)) <$> cast_leaf (type t) (VObj o)
      | _ => None
      end
  end.

(** Apply a cast update to a document; [$push] needs an array (or nothing)
    at its path. *)
Definition apply_change (c : change) (d : doc) : option doc :=
  match c with
  | CSet l => Some (foldr (λ '(k, b) d, <[k:=b]> d) d l)
  | CPush k b =>
      match d !! k with
      | None => Some (<[k := BArr [b]]> d)
      | Some (BArr l) => Some (<[k := BArr (l ++ [b])]> d)
      | Some _ => None
      end
  end.

(** Replace the first document that satisfies [P]. *)
Fixpoint replace_first (P : doc → bool) (d' : doc) (l : list doc) : list doc :=
  match l with
  | [] => []
  | d :: l' => if P d then d' :: l' else d :: replace_first P d' l'
  end.

(** [M.findOneAndUpdate(q, u, { new: true })]: the update is cast first
    (a cast error throws), then applied to the first match; validators do
    not run. *)
Definition mem_findOneAndUpdate (m : model) (q : query) (u : update) (st : mem)
    : result (option doc) * mem :=
  match cast_update (schema_of m) u (next_id st) with
  | None => (Throw "Cast failed", st)
  | Some (c, n) =>
      match List.find (matches q) (coll m st) with
      | None => (Ok None, st)
      | Some d =>
          match apply_change c d with
          | None => (Throw "The field must be an array", st)
          | Some d' =>
              (Ok (Some d'),
               set_coll m (replace_first (matches q) d' (coll m st)) n st)
          end
      end
  end.

(** Array changes saved through [save()] increment the version key. *)
Definition bump (d : doc) : doc :=
  match d !! "__v" with
  | Some (BInt v) => <["__v" := BInt (v + 1)]> d
  | _ => d
  end.

(** [d.k.push(o)] followed by [d.save()]: the element is cast, the
    document validated, and the push sent to the stored document with the
    [_id] of [d]. *)
Definition mem_push_save (m : model) (d : doc) (k : string) (o : obj) (st : mem)
    : result doc * mem :=
  match cast_update (schema_of m) (UPush k o) (next_id st) with
  | None => (Throw (model_name m ++ " validation failed: cast failed"), st)
  | Some (c, n) =>
      match apply_change c d with
      | None => (Throw "push is not a function", st)
      | Some d1 =>
          if negb (validate (schema_of m) d1) then
            (Throw (model_name m ++ " validation failed: a required path is missing"), st)
          else
            match List.find (same_at "_id" d) (coll m st) with
            | None => (Throw "No document found for query", st)
            | Some s =>
                match apply_change c s with
                | None => (Throw "The field must be an array", st)
                | Some s1 =>
                    (Ok (bump d1),
                     set_coll m (replace_first (same_at "_id" d) (bump s1) (coll m st)) n st)
                end
            end
      end
  end.

Definition MemStore : Store mem := {|
  Model_findOne := mem_findOne;
  Model_find := mem_find;
  Model_save := mem_save;
  Model_findOneAndUpdate := mem_findOneAndUpdate;
  Document_push_save := mem_push_save
|}.

End MemStore.

(** *** 4.3 Stores and requests of the examples *)

(** A store that cannot be reached: every call throws [message]. *)
Definition DownStore (message : string) : Store unit := {|
  Model_findOne := λ _ _ _, Throw message;
  Model_find := λ _ _ _, Throw message;
  Model_save := λ _ _ st, (Throw message, st);
  Model_findOneAndUpdate := λ _ _ _ st, (Throw message, st);
  Document_push_save := λ _ _ _ _ st, (Throw message, st)
|}.

(** A runtime for the examples: decimal numbers, and a [Date] that knows one
    ISO date. *)
Definition rt0 : runtime := {|
  Date_now := 1700000000000;
  Number_toString := pretty;
  Date_cast := λ v, match v with
                    | VStr "2025-01-01" => Some 1735689600000%Z
                    | _ => None
                    end
|}.

Definition mk_request (ps : list (string * string)) (b : obj) : request :=
  {| params := list_to_map ps; body := list_to_map b |}.


(** The in-memory store of the examples: Mongoose 6 or later. *)
Definition store0 : Store mem := MemStore rt0 true.

(** POST /api/space/create { SpCode: "W1", name: "Acme" } *)
Definition req_W1 : request :=
  mk_request [] [("SpCode", VStr "W1"); ("name", VStr "Acme")].

Definition doc_W1 : doc :=
  list_to_map [("_id", BId 0); ("SpCode", BStr "W1"); ("name", BStr "Acme"); ("__v", BInt 0)].

Definition mem_W1 : mem :=
  {| spaces := [doc_W1]; projects := []; tasks := []; next_id := 1 |}.

Definition get_W1 : request := mk_request [("SpCode", "W1")] [].
Definition get_W2 : request := mk_request [("SpCode", "W2")] [].

(** POST /api/space/W1/projects/create with an empty members array *)
Definition req_P1 : request :=
  mk_request [("SpCode", "W1")]
    [("SpCode", VStr "W1"); ("projectCode", VStr "P1"); ("name", VStr "Site");
     ("description", VStr "New site"); ("teamLead", VStr "ann"); ("members", VArr []);
     ("status", VStr "open")].

Definition doc_P1 : doc :=
  list_to_map
    [("_id", BId 0); ("SpCode", BStr "W1"); ("projectCode", BStr "P1");
     ("name", BStr "Site"); ("description", BStr "New site"); ("status", BStr "open");
     ("teamLead", BStr "ann"); ("members", BArr []); ("comments", BArr []);
     ("__v", BInt 0)].

Definition mem_P1 : mem :=
  {| spaces := []; projects := [doc_P1]; tasks := []; next_id := 1 |}.

(** POST /api/space/W1/projects/create whose body names the workspace W2 *)
Definition req_P2 : request :=
  mk_request [("SpCode", "W1")]
    [("SpCode", VStr "W2"); ("projectCode", VStr "P2"); ("name", VStr "App");
     ("description", VStr "New app"); ("teamLead", VStr "ann");
     ("members", VArr [VStr "bob"]); ("status", VStr "open")].

Definition doc_P2 : doc :=
  list_to_map
    [("_id", BId 0); ("SpCode", BStr "W2"); ("projectCode", BStr "P2");
     ("name", BStr "App"); ("description", BStr "New app"); ("status", BStr "open");
     ("teamLead", BStr "ann"); ("members", BArr [BStr "bob"]); ("comments", BArr []);
     ("__v", BInt 0)].

Definition mem_P2 : mem :=
  {| spaces := []; projects := [doc_P2]; tasks := []; next_id := 1 |}.

(** PUT /api/space/W1/projects/P1/update { name: "" } *)
Definition req_P1_name_empty : request :=
  mk_request [("SpCode", "W1"); ("projectCode", "P1")] [("name", VStr "")].

(** PUT /api/space/W1/projects/P1/update { status: "done" } *)
Definition req_P1_done : request :=
  mk_request [("SpCode", "W1"); ("projectCode", "P1")] [("status", VStr "done")].

(** PUT /api/space/W1/projects/P1/update {} and
    PUT /api/space/W1/tasks/T1/update {} *)
Definition req_P1_empty : request :=
  mk_request [("SpCode", "W1"); ("projectCode", "P1")] [].
Definition req_T1_empty : request :=
  mk_request [("SpCode", "W1"); ("taskId", "T1")] [].

(** POST /api/space/W1/tasks/create whose body names the workspace W2 and a
    project that is not stored *)
Definition req_T1 : request :=
  mk_request [("SpCode", "W1")]
    [("SpCode", VStr "W2"); ("projectId", VStr "P9"); ("taskId", VStr "T1");
     ("title", VStr "Draft"); ("status", VStr "todo"); ("assignedTo", VStr "bob");
     ("priority", VStr "high"); ("assignedBy", VStr "ann");
     ("description", VStr "First draft"); ("deadline", VStr "2025-01-01")].

Definition doc_T1 : doc :=
  list_to_map
    [("_id", BId 0); ("SpCode", BStr "W2"); ("projectId", BStr "P9");
     ("taskId", BStr "T1"); ("title", BStr "Draft"); ("status", BStr "todo");
     ("assignedTo", BStr "bob"); ("priority", BStr "high"); ("assignedBy", BStr "ann");
     ("description", BStr "First draft"); ("deadline", BDate 1735689600000);
     ("comments", BArr []); ("__v", BInt 0)].

Definition mem_T1 : mem :=
  {| spaces := []; projects := []; tasks := [doc_T1]; next_id := 1 |}.

(** POST /api/space/W1/tasks/T7/comments, with and without a text *)
Definition req_comment : request :=
  mk_request [("SpCode", "W1"); ("taskId", "T7")]
    [("author", VStr "ann"); ("text", VStr "hello")].
Definition req_comment_no_text : request :=
  mk_request [("SpCode", "W1"); ("taskId", "T7")] [("author", VStr "ann")].

(** GET /api/space/W1/projects/P1 and GET /api/space/W2/tasks/T1 *)
Definition get_P1 : request := mk_request [("SpCode", "W1"); ("projectCode", "P1")] [].
Definition get_T1 : request := mk_request [("SpCode", "W2"); ("taskId", "T1")] [].

(** POST /api/space/W1/projects/P1/comments { comment: "looks good" } and the
    same request for the project P9 *)
Definition req_P1_comment : request :=
  mk_request [("SpCode", "W1"); ("projectCode", "P1")] [("comment", VStr "looks good")].

(** POST /api/space/W2/tasks/T1/comments { author: "ann", text: "hello" } *)
Definition req_T1_comment : request :=
  mk_request [("SpCode", "W2"); ("taskId", "T1")]
    [("author", VStr "ann"); ("text", VStr "hello")].

(** PUT /api/space/W2/tasks/T1/update { status: "done" } and the same
    request for the task T9 *)
Definition req_T1_done : request :=
  mk_request [("SpCode", "W2"); ("taskId", "T1")] [("status", VStr "done")].
Definition req_T9_done : request :=
  mk_request [("SpCode", "W2"); ("taskId", "T9")] [("status", VStr "done")].

(** PUT /api/space/W1/projects/P9/update { status: "done" } *)
Definition req_P9_done : request :=
  mk_request [("SpCode", "W1"); ("projectCode", "P9")] [("status", VStr "done")].

(* ===================================================================== *)
(** ** 5. The vocabulary of the statements *)
(* ===================================================================== *)

(** The body fields each handler destructures, in source order. *)
Definition space_required : list string := ["SpCode"; "name"].
Definition project_required : list string :=
  ["SpCode"; "projectCode"; "name"; "description"; "teamLead"; "members"; "status"].
Definition project_updatable : list string :=
  ["name"; "description"; "teamLead"; "members"; "status"].
Definition task_required : list string :=
  ["SpCode"; "projectId"; "taskId"; "title"; "status"; "assignedTo"; "priority";
   "assignedBy"; "description"; "deadline"].
Definition task_updatable : list string :=
  ["title"; "status"; "assignedTo"; "priority"; "assignedBy"; "description"; "deadline"].

(** The object literal [{ k1, k2, ... }] built from the body fields [ks]. *)
Definition pick (req : request) (ks : list string) : obj :=
  map (λ k, (k, field req k)) ks.

Definition all_truthy (req : request) (ks : list string) : Prop :=
  Forall (λ k, truthy (field req k) = true) ks.
Definition some_falsy (req : request) (ks : list string) : Prop :=
  Exists (λ k, truthy (field req k) = false) ks.
Definition some_truthy (req : request) (ks : list string) : Prop :=
  Exists (λ k, truthy (field req k) = true) ks.
Definition none_present (req : request) (ks : list string) : Prop :=
  Forall (λ k, body req !! k = None) ks.

(** The filters the handlers build from the path. *)
Definition project_query (req : request) : query :=
  [("SpCode", param req "SpCode"); ("projectCode", param req "projectCode")].
Definition task_query (req : request) : query :=
  [("SpCode", param req "SpCode"); ("taskId", param req "taskId")].

(** The twelve operations, with the text of their [catch] block. *)
Inductive operation :=
| GetSpace | CreateSpace
| ListProjects | GetProject | CreateProject | UpdateProject
| ListTasks | GetTask | CreateTask | UpdateTask
| AddProjectComment | AddTaskComment.

Definition is_read (op : operation) : bool :=
  match op with
  | GetSpace | ListProjects | GetProject | ListTasks | GetTask => true
  | _ => false
  end.

Definition catch_text (op : operation) : string :=
  match op with
  | GetSpace => "Error fetching Space details"
  | CreateSpace => "Error creating Space"
  | ListProjects => "Failed to fetch projects"
  | GetProject => "Error fetching project details"
  | CreateProject => "Error creating project"
  | UpdateProject => "Error updating project"
  | ListTasks => "Failed to fetch tasks"
  | GetTask => "Error fetching task details"
  | CreateTask => "Error creating task"
  | UpdateTask => "Error updating task"
  | AddProjectComment => "Error adding comment to project"
  | AddTaskComment => "Error adding comment to task"
  end.

(** The status each [catch] block answers with. *)
Definition catch_status (op : operation) : nat :=
  match op with
  | GetSpace | ListProjects | GetProject | ListTasks | GetTask => 500
  | CreateTask => 500
  | CreateSpace | CreateProject | UpdateProject | UpdateTask
  | AddProjectComment | AddTaskComment => 400
  end.

Section Operations.
Context {S : Type} `{!Store S}.
Variable rt : runtime.

Definition handler (op : operation) : request → S → response * S :=
  match op with
  | GetSpace => getSpace
  | CreateSpace => createSpace
  | ListProjects => listProjects
  | GetProject => getProject
  | CreateProject => createProject
  | UpdateProject => updateProject
  | ListTasks => listTasks
  | GetTask => getTask
  | CreateTask => createTask
  | UpdateTask => updateTask
  | AddProjectComment => addProjectComment rt
  | AddTaskComment => addTaskComment rt
  end.

(** The store call that [op] makes for [req] on [st] throws [m] and leaves
    [st'].  A handler that validates its body reaches the store only when
    the validation passes. *)
Definition store_throws (op : operation) (req : request) (st : S) (m : string) (st' : S)
    : Prop :=
  match op with
  | GetSpace =>
      Model_findOne Space [("SpCode", param req "SpCode")] st = Throw m ∧ st' = st
  | CreateSpace =>
      all_truthy req space_required ∧
      Model_save Space (pick req space_required) st = (Throw m, st')
  | ListProjects =>
      Model_find Project [("SpCode", param req "SpCode")] st = Throw m ∧ st' = st
  | GetProject =>
      Model_findOne Project (project_query req) st = Throw m ∧ st' = st
  | CreateProject =>
      all_truthy req project_required ∧
      Model_save Project (pick req project_required) st = (Throw m, st')
  | UpdateProject =>
      some_truthy req project_updatable ∧
      Model_findOneAndUpdate Project (project_query req)
        (USet (pick req project_updatable)) st = (Throw m, st')
  | ListTasks =>
      Model_find Task [("SpCode", param req "SpCode")] st = Throw m ∧ st' = st
  | GetTask =>
      Model_findOne Task (task_query req) st = Throw m ∧ st' = st
  | CreateTask =>
      all_truthy req task_required ∧
      Model_save Task (pick req task_required) st = (Throw m, st')
  | UpdateTask =>
      some_truthy req task_updatable ∧
      Model_findOneAndUpdate Task (task_query req)
        (USet (pick req task_updatable)) st = (Throw m, st')
  | AddProjectComment =>
      truthy (field req "comment") = true ∧
      Model_findOneAndUpdate Project (project_query req)
        (UPush "comments" (pick req ["comment"] ++ [("date", VNum (Date_now rt))])) st
        = (Throw m, st')
  | AddTaskComment =>
      all_truthy req ["author"; "text"] ∧
      ((Model_findOne Task (task_query req) st = Throw m ∧ st' = st) ∨
       (∃ task, Model_findOne Task (task_query req) st = Ok (Some task) ∧
                Document_push_save Task task "comments"
                  (pick req ["author"; "text"] ++ [("timestamp", VNum (Date_now rt))]) st
                = (Throw m, st')))
  end.

End Operations.

(** No stored document has the string [s] at path [k]. *)
Definition unused (k s : string) (l : list doc) : Prop :=
  Forall (λ d : doc, d !! k ≠ Some (BStr s)) l.
Definition used (k s : string) (l : list doc) : Prop :=
  Exists (λ d : doc, d !! k = Some (BStr s)) l.

(** The paths that identify a document and its parents. *)
Definition project_identity : list string := ["_id"; "SpCode"; "projectCode"].
Definition task_identity : list string := ["_id"; "SpCode"; "projectId"; "taskId"].

Section Casts.
Variable rt : runtime.

(** The cast of a value for a path that holds no subdocuments. *)
Definition flat (p : pathspec) : bool :=
  match p with DocArray _ => false | _ => true end.

Definition cast_flat (p : pathspec) (v : value) : option bson :=
  match p with
  | Leaf t => cast_leaf rt (type t) v
  | ArrayOf t => cast_array rt (type t) v
  | DocArray _ => None
  end.

(** The cast of [v] for the path [k] of the model [m]. *)
Definition cast_at (m : model) (k : string) (v : value) : option bson :=
  p ← assoc (schema_of m) k; cast_flat p v.

(** The schema casts [v] to a non-empty string, which a [required] path
    of type [String] accepts. *)
Definition casts_to_text (v : value) : Prop :=
  ∃ s, castString rt v = Some (BStr s) ∧ s ≠ "".

End Casts.

Definition flat_keys (sch : schema) (o : obj) : Prop :=
  Forall (λ kv : string * value, ∀ p, assoc sch kv.1 = Some p → flat p = true) o.

Definition task_strings : list string :=
  ["SpCode"; "projectId"; "taskId"; "title"; "status"; "assignedTo"; "priority";
   "assignedBy"; "description"].

(** Tactics for the guards of the handlers. *)
Ltac split_Forall :=
  repeat match goal with
         | H : Forall _ (_ :: _) |- _ => apply Forall_cons in H as [? H]
         end.

Ltac split_Exists :=
  repeat match goal with
         | H : Exists _ (_ :: _) |- _ => apply Exists_cons in H as [H | H]
         | H : Exists _ [] |- _ => apply Exists_nil in H; destruct H
         end.

Ltac bool_guard :=
  repeat (rewrite ?orb_true_r, ?orb_true_l, ?andb_false_r, ?andb_false_l; simpl).

(** *** The store across requests *)

(** Equality of models is decidable. *)
#[global] Instance model_eq_dec : EqDecision model.
Proof. solve_decision. Defined.

(** The values the documents of a collection hold at path [k], in order. *)
Definition key_view (k : string) (l : list doc) : list (option bson) :=
  (λ d : doc, d !! k) <$> l.

(** Every document has an [_id] drawn from the counter below [n]. *)
Definition ids_below (n : nat) (l : list doc) : Prop :=
  Forall (λ x : option bson, ∃ i, x = Some (BId i) ∧ (i < n)%nat) (key_view "_id" l).

(** No two documents hold the same value at path [k]. *)
Definition distinct_at (k : string) (l : list doc) : Prop :=
  NoDup (key_view k l).

(** The store is well formed: in each collection the ids come from the
    counter and are distinct, and the paths with a unique index ([SpCode] of
    a workspace, [projectCode] of a project, [taskId] of a task) hold
    distinct values. *)
Definition wf (st : mem) : Prop :=
  ∀ m, ids_below (next_id st) (coll m st) ∧
       distinct_at "_id" (coll m st) ∧
       Forall (λ k, distinct_at k (coll m st)) (unique_paths (schema_of m)).

(** The paths an update writes. *)
Definition touched (u : update) : list string :=
  match u with
  | USet o => o.*1
  | UPush k _ => [k]
  end.

(** The paths a cast update writes. *)
Definition written (c : change) : list string :=
  match c with
  | CSet l => l.*1
  | CPush k _ => [k]
  end.

(** The paths no handler writes after creation. *)
Definition protected (m : model) : list string :=
  "_id" :: unique_paths (schema_of m).

Section Mutations.
Variable rt : runtime.
Variable omitUndefined : bool.

(** The store [st'] comes from [st] by one successful write of a handler: a
    save, an update that writes no protected path, or a comment pushed on a
    loaded document. *)
Definition mutation (st st' : mem) : Prop :=
  (∃ m o d, mem_save rt m o st = (Ok d, st')) ∨
  (∃ m q u d, Forall (λ k, k ∉ protected m) (touched u) ∧
              mem_findOneAndUpdate rt omitUndefined m q u st = (Ok (Some d), st')) ∨
  (∃ m t o d, mem_push_save rt omitUndefined m t "comments" o st = (Ok d, st')).

End Mutations.

(** The runtime at the time [now]. *)
Definition at_time (rt : runtime) (now : Z) : runtime :=
  {| Date_now := now;
     Number_toString := Number_toString rt;
     Date_cast := Date_cast rt |}.

(** The store after the requests [reqs], each with the time it arrives at,
    are handled one after another. *)
Fixpoint serve (rt : runtime) (omitUndefined : bool)
    (reqs : list (Z * operation * request)) (st : mem) : mem :=
  match reqs with
  | [] => st
  | (now, op, req) :: rest =>
      serve rt omitUndefined rest
        (handler (Store0 := MemStore (at_time rt now) omitUndefined) (at_time rt now) op req st).2
  end.

(** The body fields of a project that the schema types as required
    strings. *)
Definition project_strings : list string :=
  ["SpCode"; "projectCode"; "name"; "description"; "teamLead"; "status"].

(** The comment subdocuments the handlers push, after the cast. *)
Definition project_comment (text : bson) (now : Z) (id : nat) : bson :=
  BDoc [("comment", text); ("date", BDate now); ("_id", BId id)].
Definition task_comment (author text : bson) (now : Z) (id : nat) : bson :=
  BDoc [("author", author); ("text", text); ("timestamp", BDate now); ("_id", BId id)].

(** The payload is an error object [{ error, details? }]. *)
Definition is_error (p : payload) : bool :=
  match p with
  | ErrorBody _ _ => true
  | _ => false
  end.

(* ===================================================================== *)
(** ** 6. Properties that hold on every store *)
(* ===================================================================== *)

Section AnyStore.
Context {S : Type} `{!Store S}.

Lemma absent_falsy (req : request) (k : string) :
  body req !! k = None → truthy (field req k) = false.
Proof. intros H. unfold field. by rewrite H. Qed.

Lemma createSpace_missing (req : request) (st : S) :
  some_falsy req space_required →
  createSpace req st = (res_status 400 (ErrorBody "Missing required fields" None), st).
Proof.
  unfold some_falsy, space_required. intros H.
  unfold createSpace, try_catch.
  split_Exists; rewrite H; bool_guard; reflexivity.
Qed.

Lemma createProject_missing (req : request) (st : S) :
  some_falsy req project_required →
  createProject req st = (res_status 400 (ErrorBody "Missing required fields" None), st).
Proof.
  unfold some_falsy, project_required. intros H.
  unfold createProject, try_catch.
  split_Exists; rewrite H; bool_guard; reflexivity.
Qed.

Lemma createProject_calls_store (req : request) (st : S) :
  all_truthy req project_required →
  createProject req st =
    match Model_save Project (pick req project_required) st with
    | (Ok d, st') => (res_status 201 (DocBody d), st')
    | (Throw e, st') => (res_status 400 (ErrorBody "Error creating project" (Some e)), st')
    end.
Proof.
  unfold all_truthy, project_required. intros H. split_Forall.
  unfold createProject, try_catch, bind, ret, pick.
  repeat match goal with E : truthy _ = true |- _ => rewrite E; clear E end.
  simpl. by destruct (Model_save _ _ _) as [[d|e] st'].
Qed.

Lemma createTask_missing (req : request) (st : S) :
  some_falsy req task_required →
  createTask req st = (res_status 400 (ErrorBody "Missing required fields" None), st).
Proof.
  unfold some_falsy, task_required. intros H.
  unfold createTask, try_catch.
  split_Exists; rewrite H; bool_guard; reflexivity.
Qed.

Lemma createTask_calls_store (req : request) (st : S) :
  all_truthy req task_required →
  createTask req st =
    match Model_save Task (pick req task_required) st with
    | (Ok d, st') => (res_status 201 (DocBody d), st')
    | (Throw e, st') => (res_status 500 (ErrorBody "Error creating task" (Some e)), st')
    end.
Proof.
  unfold all_truthy, task_required. intros H. split_Forall.
  unfold createTask, try_catch, bind, ret, pick.
  repeat match goal with E : truthy _ = true |- _ => rewrite E; clear E end.
  simpl. by destruct (Model_save _ _ _) as [[d|e] st'].
Qed.

Lemma createSpace_calls_store (req : request) (st : S) :
  all_truthy req space_required →
  createSpace req st =
    match Model_save Space (pick req space_required) st with
    | (Ok d, st') => (res_status 201 (DocBody d), st')
    | (Throw e, st') => (res_status 400 (ErrorBody "Error creating Space" (Some e)), st')
    end.
Proof.
  unfold all_truthy, space_required. intros H. split_Forall.
  unfold createSpace, try_catch, bind, ret, pick.
  repeat match goal with E : truthy _ = true |- _ => rewrite E; clear E end.
  simpl. by destruct (Model_save _ _ _) as [[d|e] st'].
Qed.

Lemma updateProject_rejects (req : request) (st : S) :
  Forall (λ k, truthy (field req k) = false) project_updatable →
  updateProject req st = (res_status 400 (ErrorBody "No fields to update" None), st).
Proof.
  unfold project_updatable. intros H. split_Forall.
  unfold updateProject, try_catch.
  repeat match goal with E : truthy _ = false |- _ => rewrite E; clear E end.
  reflexivity.
Qed.

Lemma updateTask_rejects (req : request) (st : S) :
  Forall (λ k, truthy (field req k) = false) task_updatable →
  updateTask req st = (res_status 400 (ErrorBody "No fields to update" None), st).
Proof.
  unfold task_updatable. intros H. split_Forall.
  unfold updateTask, try_catch.
  repeat match goal with E : truthy _ = false |- _ => rewrite E; clear E end.
  reflexivity.
Qed.

Lemma updateProject_calls_store (req : request) (st : S) :
  some_truthy req project_updatable →
  updateProject req st =
    match Model_findOneAndUpdate Project (project_query req)
            (USet (pick req project_updatable)) st with
    | (Ok None, st') => (res_status 404 (ErrorBody "Project not found" None), st')
    | (Ok (Some d), st') => (res_json (DocBody d), st')
    | (Throw e, st') => (res_status 400 (ErrorBody "Error updating project" (Some e)), st')
    end.
Proof.
  unfold some_truthy, project_updatable. intros H.
  unfold updateProject, try_catch, bind, ret, pick, project_query.
  split_Exists; rewrite H; bool_guard;
    by destruct (Model_findOneAndUpdate _ _ _ _) as [[[d|]|e] st'].
Qed.

Lemma updateTask_calls_store (req : request) (st : S) :
  some_truthy req task_updatable →
  updateTask req st =
    match Model_findOneAndUpdate Task (task_query req)
            (USet (pick req task_updatable)) st with
    | (Ok None, st') => (res_status 404 (ErrorBody "Task not found" None), st')
    | (Ok (Some d), st') => (res_json (DocBody d), st')
    | (Throw e, st') => (res_status 400 (ErrorBody "Error updating task" (Some e)), st')
    end.
Proof.
  unfold some_truthy, task_updatable. intros H.
  unfold updateTask, try_catch, bind, ret, pick, task_query.
  split_Exists; rewrite H; bool_guard;
    by destruct (Model_findOneAndUpdate _ _ _ _) as [[[d|]|e] st'].
Qed.

Lemma addTaskComment_missing (rt : runtime) (req : request) (st : S) :
  some_falsy req ["author"; "text"] →
  addTaskComment rt req st =
    (res_status 400 (ErrorBody "Author, and text are required" None), st).
Proof.
  unfold some_falsy. intros H. unfold addTaskComment, try_catch.
  split_Exists; rewrite H; bool_guard; reflexivity.
Qed.

Lemma addTaskComment_calls_store (rt : runtime) (req : request) (st : S) :
  all_truthy req ["author"; "text"] →
  addTaskComment rt req st =
    match Model_findOne Task (task_query req) st with
    | Ok None => (res_status 404 (ErrorBody "Task not found" None), st)
    | Ok (Some task) =>
        match Document_push_save Task task "comments"
                (pick req ["author"; "text"] ++ [("timestamp", VNum (Date_now rt))]) st with
        | (Ok d, st') => (res_json (DocBody d), st')
        | (Throw e, st') =>
            (res_status 400 (ErrorBody "Error adding comment to task" (Some e)), st')
        end
    | Throw e => (res_status 400 (ErrorBody "Error adding comment to task" (Some e)), st)
    end.
Proof.
  unfold all_truthy. intros H. split_Forall.
  unfold addTaskComment, try_catch, bind, ret, await, pick, task_query.
  repeat match goal with E : truthy _ = true |- _ => rewrite E; clear E end.
  simpl. destruct (Model_findOne _ _ _) as [[task|]|e]; try done.
  by destruct (Document_push_save _ _ _ _ _) as [[d|e] st'].
Qed.

Lemma addProjectComment_calls_store (rt : runtime) (req : request) (st : S) :
  truthy (field req "comment") = true →
  addProjectComment rt req st =
    match Model_findOneAndUpdate Project (project_query req)
            (UPush "comments" (pick req ["comment"] ++ [("date", VNum (Date_now rt))])) st with
    | (Ok None, st') => (res_status 404 (ErrorBody "Project not found" None), st')
    | (Ok (Some d), st') => (res_json (DocBody d), st')
    | (Throw e, st') =>
        (res_status 400 (ErrorBody "Error adding comment to project" (Some e)), st')
    end.
Proof.
  intros H. unfold addProjectComment, try_catch, bind, ret, pick, project_query.
  rewrite H. simpl.
  by destruct (Model_findOneAndUpdate _ _ _ _) as [[[d|]|e] st'].
Qed.

End AnyStore.

(** The falsy values. *)
Lemma falsy_iff (v : value) :
  truthy v = false ↔
  v = VUndefined ∨ v = VNull ∨ v = VBool false ∨ v = VNum 0 ∨ v = VStr "".
Proof.
  split.
  - destruct v as [| |[]|n|s| |]; simpl; intros H; try discriminate; eauto.
    + apply negb_false_iff, Z.eqb_eq in H. subst. eauto.
    + apply negb_false_iff, String.eqb_eq in H. subst. eauto 6.
  - intros [->|[->|[->|[->| ->]]]]; reflexivity.
Qed.

Section CatchBlocks.
Context {S : Type} `{!Store S}.
Variable rt : runtime.

Lemma read_store_error (op : operation) (req : request) (st st' : S) (m : string) :
  is_read op = true →
  store_throws rt op req st m st' →
  handler rt op req st = (res_status 500 (ErrorBody (catch_text op) None), st').
Proof.
  destruct op; try discriminate; intros _ [H ->]; simpl;
    unfold getSpace, listProjects, getProject, listTasks, getTask,
      try_catch, bind, await, project_query, task_query in *;
    by rewrite H.
Qed.

Lemma write_store_error (op : operation) (req : request) (st st' : S) (m : string) :
  is_read op = false →
  store_throws rt op req st m st' →
  handler rt op req st =
    (res_status (catch_status op) (ErrorBody (catch_text op) (Some m)), st').
Proof.
  destruct op; try discriminate; intros _ [Hv H]; simpl.
  - by rewrite createSpace_calls_store, H.
  - by rewrite createProject_calls_store, H.
  - by rewrite updateProject_calls_store, H.
  - by rewrite createTask_calls_store, H.
  - by rewrite updateTask_calls_store, H.
  - by rewrite addProjectComment_calls_store, H.
  - rewrite addTaskComment_calls_store by done.
    destruct H as [[H ->]|(task & H1 & H2)].
    + by rewrite H.
    + by rewrite H1, H2.
Qed.

End CatchBlocks.

Section EveryStore.
Context {S : Type} `{!Store S}.
Variable rt : runtime.

(** C1.  When a required field of the create-project body is falsy, that
    is undefined (absent), null, false, 0 or the empty string, the handler
    answers 400 'Missing required fields' and the store is as before.  The
    empty array is truthy: a body whose seven fields are truthy, an empty
    members array included, goes to the store, and the answer is the store's. *)
Theorem createProject_required_fields (req : request) (st : S) :
  (some_falsy req project_required →
   createProject req st = (res_status 400 (ErrorBody "Missing required fields" None), st)) ∧
  (∀ v, truthy v = false ↔
        v = VUndefined ∨ v = VNull ∨ v = VBool false ∨ v = VNum 0 ∨ v = VStr "") ∧
  truthy (VArr []) = true ∧
  (all_truthy req project_required →
   createProject req st =
     match Model_save Project (pick req project_required) st with
     | (Ok d, st') => (res_status 201 (DocBody d), st')
     | (Throw e, st') => (res_status 400 (ErrorBody "Error creating project" (Some e)), st')
     end).
Proof.
  split_and!.
  - apply createProject_missing.
  - apply falsy_iff.
  - reflexivity.
  - apply createProject_calls_store.
Qed.

(** C3.  When the store call of an operation other than create-task
    throws, a read answers 500 with the fixed text of its catch block and no
    details, and a write answers 400 with the fixed text and the message of
    the store as details. *)
Theorem store_error_response (op : operation) (req : request) (st st' : S) (m : string) :
  op ≠ CreateTask →
  store_throws rt op req st m st' →
  handler rt op req st =
    (res_status (if is_read op then 500 else 400)
       (ErrorBody (catch_text op) (if is_read op then None else Some m)), st').
Proof.
  intros Hop H. destruct (is_read op) eqn:R.
  - by apply (read_store_error rt op req st st' m).
  - rewrite (write_store_error rt op req st st' m R H). by destruct op.
Qed.

(** Create-task is the write whose catch block answers 500. *)
Lemma createTask_store_error (req : request) (st st' : S) (m : string) :
  store_throws rt CreateTask req st m st' →
  createTask req st = (res_status 500 (ErrorBody "Error creating task" (Some m)), st').
Proof. intros H. by apply (write_store_error rt CreateTask). Qed.

(** C4.  A project update or a task update whose body has none of the
    updatable fields answers 400 'No fields to update', and the store is as
    before. *)
Theorem update_without_fields_is_rejected (req : request) (st : S) :
  (none_present req project_updatable →
   updateProject req st = (res_status 400 (ErrorBody "No fields to update" None), st)) ∧
  (none_present req task_updatable →
   updateTask req st = (res_status 400 (ErrorBody "No fields to update" None), st)).
Proof.
  split; intros H.
  - apply updateProject_rejects. eapply Forall_impl; [exact H|].
    intros k Hk. by apply absent_falsy.
  - apply updateTask_rejects. eapply Forall_impl; [exact H|].
    intros k Hk. by apply absent_falsy.
Qed.

End EveryStore.

(* ===================================================================== *)
(** ** 7. Properties of the handlers on the in-memory store *)
(* ===================================================================== *)

Lemma has_str_true (d : doc) (k s : string) :
  has_str d k s = true ↔ d !! k = Some (BStr s).
Proof.
  unfold has_str. destruct (d !! k) as [[]|]; try (split; [discriminate|congruence]).
  rewrite String.eqb_eq. split; congruence.
Qed.

Lemma has_str_false (d : doc) (k s : string) :
  has_str d k s = false ↔ d !! k ≠ Some (BStr s).
Proof.
  rewrite <- has_str_true. destruct (has_str d k s); split; congruence.
Qed.

Lemma filter_none {A} (P : A → bool) (l : list A) :
  Forall (λ x, P x = false) l → List.filter P l = [].
Proof. induction 1 as [|x l Hx _ IH]; simpl; [done|]. by rewrite Hx. Qed.

Lemma find_none_Forall {A} (P : A → bool) (l : list A) :
  Forall (λ x, P x = false) l → List.find P l = None.
Proof. induction 1 as [|x l Hx _ IH]; simpl; [done|]. by rewrite Hx. Qed.

Lemma find_app_new {A} (P : A → bool) (l : list A) (x : A) :
  Forall (λ x, P x = false) l → P x = true → List.find P (l ++ [x]) = Some x.
Proof.
  induction 1 as [|y l Hy _ IH]; simpl; intros Hx.
  - by rewrite Hx.
  - rewrite Hy. by apply IH.
Qed.

Lemma existsb_false_Forall {A} (P : A → bool) (l : list A) :
  Forall (λ x, P x = false) l → existsb P l = false.
Proof. induction 1 as [|x l Hx _ IH]; simpl; [done|]. by rewrite Hx. Qed.

Lemma existsb_true_Exists {A} (P : A → bool) (l : list A) :
  Exists (λ x, P x = true) l → existsb P l = true.
Proof.
  induction 1 as [x l Hx|x l _ IH]; simpl; [by rewrite Hx|].
  rewrite IH. apply orb_true_r.
Qed.

Lemma same_at_str (k s : string) (d d' : doc) :
  d !! k = Some (BStr s) → same_at k d d' = has_str d' k s.
Proof.
  intros H. unfold same_at, has_str. rewrite H.
  by destruct (d' !! k) as [[]|].
Qed.

Ltac map_lookups :=
  repeat (rewrite lookup_insert_eq || rewrite lookup_singleton_eq
          || (rewrite lookup_insert_ne by done)
          || (rewrite lookup_singleton_ne by done)
          || rewrite lookup_empty).

(** Lookups at literal keys, by computation. *)
Ltac eval_lookups :=
  repeat match goal with
         | |- context [@lookup string bson (gmap string bson) _ ?k ?d] =>
             let r := eval vm_compute in (d !! k) in
             change (d !! k) with r
         end.

Section InMemory.
Variable rt : runtime.
Variable omitUndefined : bool.

Let store : Store mem := MemStore rt omitUndefined.
#[local] Existing Instance store.

Lemma unused_same_at (k s : string) (d : doc) (l : list doc) :
  d !! k = Some (BStr s) → unused k s l → existsb (same_at k d) l = false.
Proof.
  intros Hd H. apply existsb_false_Forall. eapply Forall_impl; [exact H|].
  intros d' Hd'. simpl in Hd'. rewrite (same_at_str _ s) by done. by apply has_str_false.
Qed.

Lemma used_same_at (k s : string) (d : doc) (l : list doc) :
  d !! k = Some (BStr s) → used k s l → existsb (same_at k d) l = true.
Proof.
  intros Hd H. apply existsb_true_Exists. eapply Exists_impl; [exact H|].
  intros d' Hd'. simpl in Hd'. rewrite (same_at_str _ s) by done. by apply has_str_true.
Qed.

Lemma truthy_defined (v : value) : truthy v = true → is_undefined v = false.
Proof. by destruct v. Qed.

(** Steps through the constructor of a document: each value of the request
    is defined and has a known cast. *)
Ltac construct_steps rt :=
  repeat (cbn;
          match goal with
          | H : is_undefined ?v = false |- context [is_undefined ?v] => rewrite H
          | H : castString rt ?v = Some _ |- context [castString rt ?v] => rewrite H
          | H : castDate rt ?v = Some _ |- context [castDate rt ?v] => rewrite H
          end);
  cbn.

Lemma createSpace_fresh (req : request) (st : mem) (c n : string) :
  all_truthy req space_required →
  castString rt (field req "SpCode") = Some (BStr c) → c ≠ "" →
  castString rt (field req "name") = Some (BStr n) → n ≠ "" →
  unused "SpCode" c (spaces st) →
  let d : doc := <["__v" := BInt 0]> (<["name" := BStr n]>
                   (<["SpCode" := BStr c]> {["_id" := BId (next_id st)]})) in
  createSpace req st =
    (res_status 201 (DocBody d),
     {| spaces := spaces st ++ [d]; projects := projects st; tasks := tasks st;
        next_id := S (next_id st) |}).
Proof.
  intros Ht Hc Hc' Hn Hn' Hfresh d.
  apply String.eqb_neq in Hc', Hn'.
  rewrite createSpace_calls_store by done.
  unfold all_truthy, space_required in Ht. split_Forall.
  repeat match goal with
         | H : truthy (field req _) = true |- _ => apply truthy_defined in H
         end.
  unfold pick, space_required. cbn [map].
  change (Model_save Space) with (mem_save rt Space).
  unfold mem_save. construct_steps rt.
  unfold valid_path, valid_leaf, duplicate. cbn. map_lookups. cbn.
  rewrite Hc', Hn'. cbn.
  rewrite (unused_same_at _ c) by (by map_lookups). cbn.
  reflexivity.
Qed.

Lemma getSpace_found (req : request) (st : mem) (d : doc) :
  List.find (matches [("SpCode", param req "SpCode")]) (spaces st) = Some d →
  getSpace req st = (res_status 200 (DocBody d), st).
Proof.
  intros H. unfold getSpace, try_catch, bind, await, ret. simpl.
  unfold mem_findOne. simpl. by rewrite H.
Qed.

Lemma matches_one (k s : string) (d : doc) : matches [(k, s)] d = has_str d k s.
Proof. unfold matches. simpl. apply andb_true_r. Qed.

Lemma matches_two (k1 s1 k2 s2 : string) (d : doc) :
  matches [(k1, s1); (k2, s2)] d = has_str d k1 s1 && has_str d k2 s2.
Proof. unfold matches. simpl. by rewrite andb_true_r. Qed.

(** A code that is already stored makes [save] fail, whatever else the
    body holds. *)
Lemma createSpace_duplicate (req : request) (st : mem) (c : string) :
  castString rt (field req "SpCode") = Some (BStr c) →
  used "SpCode" c (spaces st) →
  ∃ p, createSpace req st = (res_status 400 p, st).
Proof.
  intros Hc Hused.
  destruct (truthy (field req "SpCode")) eqn:Ht1; cycle 1.
  { eexists. apply createSpace_missing. by apply Exists_cons_hd. }
  destruct (truthy (field req "name")) eqn:Ht2; cycle 1.
  { eexists. apply createSpace_missing. by apply Exists_cons_tl, Exists_cons_hd. }
  rewrite createSpace_calls_store by (by repeat constructor).
  apply truthy_defined in Ht1, Ht2.
  unfold pick, space_required. cbn [map].
  change (Model_save Space) with (mem_save rt Space).
  unfold mem_save. construct_steps rt.
  destruct (castString rt (field req "name")) as [b|]; cbn; [|by eexists].
  destruct (negb _); [by eexists|].
  unfold duplicate. cbn.
  rewrite (used_same_at "SpCode" c) by (done || by map_lookups). cbn.
  by eexists.
Qed.

(** C5.  Let [c] be the code of the request as the schema casts it (for a
    string, the string itself).  Creating a workspace whose code and name
    are truthy and cast to non-empty strings, and whose code no stored
    workspace has, answers 201 with the created document, which carries the
    code and the name, and a get by that code then answers 200 with the same
    document; creating a workspace whose code is already stored answers 400
    and leaves the store as it was. *)
Theorem workspace_create_then_get (req : request) (st : mem) (c : string) :
  castString rt (field req "SpCode") = Some (BStr c) →
  (∀ n, all_truthy req space_required → c ≠ "" →
        castString rt (field req "name") = Some (BStr n) → n ≠ "" →
        unused "SpCode" c (spaces st) →
        ∃ d st',
          createSpace req st = (res_status 201 (DocBody d), st') ∧
          d !! "SpCode" = Some (BStr c) ∧ d !! "name" = Some (BStr n) ∧
          ∀ req', param req' "SpCode" = c →
                  getSpace req' st' = (res_status 200 (DocBody d), st')) ∧
  (used "SpCode" c (spaces st) → ∃ p, createSpace req st = (res_status 400 p, st)).
Proof.
  intros Hc. split; [|by apply createSpace_duplicate].
  intros n Ht Hc' Hn Hn' Hfresh.
  eexists _, _. split; [by apply (createSpace_fresh _ _ c n)|].
  split; [by map_lookups|]. split; [by map_lookups|].
  intros req' Hreq'. apply getSpace_found. rewrite Hreq'. simpl.
  apply find_app_new.
  - eapply Forall_impl; [exact Hfresh|]. intros d' Hd'. simpl in Hd'.
    rewrite matches_one. by apply has_str_false.
  - rewrite matches_one. apply has_str_true. by map_lookups.
Qed.

(** C8.  When no stored project (task) has the workspace code of the path,
    listing the projects (tasks) of that workspace answers 200 with the
    empty array. *)
Theorem list_without_children_is_empty (req : request) (st : mem) :
  (unused "SpCode" (param req "SpCode") (projects st) →
   listProjects req st = (res_status 200 (DocsBody []), st)) ∧
  (unused "SpCode" (param req "SpCode") (tasks st) →
   listTasks req st = (res_status 200 (DocsBody []), st)).
Proof.
  split; intros H.
  - unfold listProjects, try_catch, bind, await, ret. simpl. unfold mem_find. simpl.
    rewrite filter_none; [done|].
    eapply Forall_impl; [exact H|]. intros d Hd. simpl in Hd.
    rewrite matches_one. by apply has_str_false.
  - unfold listTasks, try_catch, bind, await, ret. simpl. unfold mem_find. simpl.
    rewrite filter_none; [done|].
    eapply Forall_impl; [exact H|]. intros d Hd. simpl in Hd.
    rewrite matches_one. by apply has_str_false.
Qed.

(** C6.  With a truthy author and text, when no stored task has both the
    workspace code and the task id of the path, the comment handler answers
    404 and the store is as before (no task is created); when author or
    text is falsy it answers 400 and the store, whichever it is, is as
    before. *)
Theorem task_comment_on_missing_task (req : request) (st : mem) :
  (all_truthy req ["author"; "text"] →
   Forall (λ d : doc, ¬ (d !! "SpCode" = Some (BStr (param req "SpCode")) ∧
                        d !! "taskId" = Some (BStr (param req "taskId")))) (tasks st) →
   addTaskComment rt req st = (res_status 404 (ErrorBody "Task not found" None), st)) ∧
  (some_falsy req ["author"; "text"] →
   ∀ (S' : Type) (any : Store S') (st' : S'),
     addTaskComment rt req st' =
       (res_status 400 (ErrorBody "Author, and text are required" None), st')).
Proof.
  split.
  - intros Ht Hnone. rewrite addTaskComment_calls_store by done.
    simpl. unfold mem_findOne. simpl.
    rewrite find_none_Forall; [done|].
    eapply Forall_impl; [exact Hnone|]. intros d Hd. simpl in Hd.
    unfold task_query. rewrite matches_two.
    apply andb_false_iff.
    destruct (has_str d "SpCode" (param req "SpCode")) eqn:E1; [|by left].
    destruct (has_str d "taskId" (param req "taskId")) eqn:E2; [|by right].
    apply has_str_true in E1, E2. by destruct Hd.
  - intros Hf S' any st'. by apply addTaskComment_missing.
Qed.


(** **** Updates *)

Lemma cast_set_keys (sch : schema) (o : obj) (id : nat) l n :
  cast_set rt omitUndefined sch o id = Some (l, n) → l.*1 ⊆ o.*1.
Proof.
  revert id l n. induction o as [|[k v] o IH]; simpl; intros id l n H.
  - by injection H as <- <-.
  - destruct (assoc sch k) as [p|].
    + destruct (is_undefined v).
      * destruct (cast_set _ _ _ o id) as [[l' n']|] eqn:E; [|done].
        simpl in H. injection H as <- <-. apply IH in E.
        destruct omitUndefined; simpl; set_solver.
      * destruct (cast_path rt p id v) as [[b id']|]; [|done]. simpl in H.
        destruct (cast_set _ _ _ o id') as [[l' n']|] eqn:E; [|done].
        simpl in H. injection H as <- <-. apply IH in E. simpl. set_solver.
    + apply IH in H. set_solver.
Qed.

Lemma lookup_set_other (l : list (string * bson)) (d : doc) (k : string) :
  k ∉ l.*1 → foldr (λ '(k, b) d, <[k:=b]> d) d l !! k = d !! k.
Proof.
  induction l as [|[k' b] l IH]; simpl; [done|]. intros H.
  rewrite lookup_insert_ne by set_solver. apply IH. set_solver.
Qed.

Lemma replace_first_map {B} (f : doc → B) (P : doc → bool) (d' : doc) (l : list doc) :
  (∀ d, List.find P l = Some d → f d' = f d) →
  map f (replace_first P d' l) = map f l.
Proof.
  induction l as [|d l IH]; simpl; [done|]. intros H.
  destruct (P d).
  - simpl. f_equal. by apply H.
  - simpl. f_equal. by apply IH.
Qed.

(** A [$set] leaves the paths that are not among its keys as they were, in
    every stored document. *)
Lemma findOneAndUpdate_set_frame (m : model) (q : query) (o : obj) (st : mem) (k : string) :
  k ∉ o.*1 →
  map (λ d : doc, d !! k) (coll m (mem_findOneAndUpdate rt omitUndefined m q (USet o) st).2)
  = map (λ d : doc, d !! k) (coll m st).
Proof.
  intros Hk. unfold mem_findOneAndUpdate. simpl.
  destruct (cast_set _ _ _ o _) as [[l n]|] eqn:E; simpl; [|done].
  destruct (List.find _ _) as [d|] eqn:F; simpl; [|done].
  assert (map (λ d0 : doc, d0 !! k)
            (replace_first (matches q) (foldr (λ '(k, b) d, <[k:=b]> d) d l) (coll m st))
          = map (λ d0 : doc, d0 !! k) (coll m st)) as Hmap.
  { apply replace_first_map. intros d0 Hd0. rewrite F in Hd0. injection Hd0 as <-.
    apply lookup_set_other. apply cast_set_keys in E. set_solver. }
  by destruct m.
Qed.

(** An update of one collection touches no other. *)
Lemma findOneAndUpdate_other (m m' : model) (q : query) (u : update) (st : mem) :
  m' ≠ m →
  coll m' (mem_findOneAndUpdate rt omitUndefined m q u st).2 = coll m' st.
Proof.
  intros Hm. unfold mem_findOneAndUpdate.
  destruct (cast_update _ _ _ _ _) as [[c n]|]; simpl; [|done].
  destruct (List.find _ _) as [d|]; simpl; [|done].
  destruct (apply_change c d); simpl; [|done].
  by destruct m, m'.
Qed.

Lemma updateProject_store (req : request) (st : mem) :
  (updateProject req st).2 = st ∨
  (updateProject req st).2 =
    (mem_findOneAndUpdate rt omitUndefined Project (project_query req)
       (USet (pick req project_updatable)) st).2.
Proof.
  destruct (decide (some_truthy req project_updatable)) as [H|H].
  - right. rewrite updateProject_calls_store by done. simpl.
    by destruct (mem_findOneAndUpdate _ _ _ _ _ _) as [[[d|]|e] st'].
  - left. rewrite updateProject_rejects; [done|].
    unfold some_truthy in H. apply not_Exists_Forall in H; [|intros k; apply _].
    eapply Forall_impl; [exact H|]. intros k Hk. simpl in Hk.
    by destruct (truthy (field req k)).
Qed.

Lemma updateTask_store (req : request) (st : mem) :
  (updateTask req st).2 = st ∨
  (updateTask req st).2 =
    (mem_findOneAndUpdate rt omitUndefined Task (task_query req)
       (USet (pick req task_updatable)) st).2.
Proof.
  destruct (decide (some_truthy req task_updatable)) as [H|H].
  - right. rewrite updateTask_calls_store by done. simpl.
    by destruct (mem_findOneAndUpdate _ _ _ _ _ _) as [[[d|]|e] st'].
  - left. rewrite updateTask_rejects; [done|].
    unfold some_truthy in H. apply not_Exists_Forall in H; [|intros k; apply _].
    eapply Forall_impl; [exact H|]. intros k Hk. simpl in Hk.
    by destruct (truthy (field req k)).
Qed.

(** C9.  After a project update every stored project has the [_id],
    [SpCode] and [projectCode] it had, after a task update every stored
    task has the [_id], [SpCode], [projectId] and [taskId] it had, and
    neither touches another collection; the outcome of an update depends on
    the body only through its updatable fields. *)
Theorem update_preserves_identity (req : request) (st : mem) :
  (∀ k, k ∈ project_identity →
        map (λ d : doc, d !! k) (projects (updateProject req st).2) =
        map (λ d : doc, d !! k) (projects st)) ∧
  spaces (updateProject req st).2 = spaces st ∧
  tasks (updateProject req st).2 = tasks st ∧
  (∀ k, k ∈ task_identity →
        map (λ d : doc, d !! k) (tasks (updateTask req st).2) =
        map (λ d : doc, d !! k) (tasks st)) ∧
  spaces (updateTask req st).2 = spaces st ∧
  projects (updateTask req st).2 = projects st ∧
  (∀ req', params req' = params req →
           Forall (λ k, field req' k = field req k) project_updatable →
           updateProject req' st = updateProject req st) ∧
  (∀ req', params req' = params req →
           Forall (λ k, field req' k = field req k) task_updatable →
           updateTask req' st = updateTask req st).
Proof.
  split_and!.
  - intros k Hk. destruct (updateProject_store req st) as [-> | ->]; [done|].
    apply (findOneAndUpdate_set_frame Project).
    unfold project_identity in Hk. simpl. set_solver.
  - destruct (updateProject_store req st) as [-> | ->]; [done|].
    by apply (findOneAndUpdate_other Project Space).
  - destruct (updateProject_store req st) as [-> | ->]; [done|].
    by apply (findOneAndUpdate_other Project Task).
  - intros k Hk. destruct (updateTask_store req st) as [-> | ->]; [done|].
    apply (findOneAndUpdate_set_frame Task).
    unfold task_identity in Hk. simpl. set_solver.
  - destruct (updateTask_store req st) as [-> | ->]; [done|].
    by apply (findOneAndUpdate_other Task Space).
  - destruct (updateTask_store req st) as [-> | ->]; [done|].
    by apply (findOneAndUpdate_other Task Project).
  - intros req' Hp H. unfold project_updatable in H. split_Forall.
    unfold updateProject, param.
    repeat match goal with E : field req' _ = _ |- _ => rewrite E; clear E end.
    by rewrite Hp.
  - intros req' Hp H. unfold task_updatable in H. split_Forall.
    unfold updateTask, param.
    repeat match goal with E : field req' _ = _ |- _ => rewrite E; clear E end.
    by rewrite Hp.
Qed.


(** **** What a [$set] stores *)

Lemma cast_path_flat (p : pathspec) (id : nat) (v : value) :
  flat p = true → cast_path rt p id v = (λ b, (b, id)) <$> cast_flat rt p v.
Proof. by destruct p. Qed.

Lemma prop_notin (o : obj) (k : string) : k ∉ o.*1 → prop o k = VUndefined.
Proof.
  induction o as [|[k' v] o IH]; simpl; [done|]. intros H.
  destruct (String.eqb_spec k k') as [->|_]; [set_solver|]. apply IH. set_solver.
Qed.

Lemma is_undefined_false (v : value) : is_undefined v = false ↔ v ≠ VUndefined.
Proof. by destruct v. Qed.

(** With [undefined] keys dropped, a path of the updated document holds
    the cast of the value the update gives it, and what it held before
    when the update gives it none. *)
Lemma cast_set_apply (sch : schema) (o : obj) (id : nat) l n (d : doc) (k : string) :
  omitUndefined = true → NoDup o.*1 → flat_keys sch o →
  cast_set rt omitUndefined sch o id = Some (l, n) →
  foldr (λ '(k, b) d, <[k:=b]> d) d l !! k =
    match assoc sch k with
    | Some p => if is_undefined (prop o k) then d !! k else cast_flat rt p (prop o k)
    | None => d !! k
    end.
Proof.
  intros Homit. revert id l n.
  induction o as [|[k0 v0] o IH]; simpl; intros id l n Hnd Hflat H.
  - injection H as <- <-. simpl. by destruct (assoc sch k).
  - apply NoDup_cons in Hnd as [Hk0 Hnd]. apply Forall_cons in Hflat as [Hp0 Hflat].
    destruct (assoc sch k0) as [p0|] eqn:A0.
    + destruct (is_undefined v0) eqn:U.
      * destruct (cast_set _ _ _ o id) as [[l' n']|] eqn:E; [|done].
        simpl in H. rewrite Homit in H. injection H as <- <-.
        rewrite (IH _ _ _ Hnd Hflat E).
        destruct (String.eqb_spec k k0) as [->|_]; [|done].
        by rewrite A0, U, (prop_notin o k0).
      * rewrite (cast_path_flat p0) in H by (by apply Hp0).
        destruct (cast_flat rt p0 v0) as [b|] eqn:C; [|done]. simpl in H.
        destruct (cast_set _ _ _ o id) as [[l' n']|] eqn:E; [|done].
        simpl in H. injection H as <- <-. simpl.
        destruct (String.eqb_spec k k0) as [->|Hne].
        -- by rewrite lookup_insert_eq, A0, U.
        -- rewrite lookup_insert_ne by done. by apply (IH id _ n').
    + rewrite (IH _ _ _ Hnd Hflat H).
      destruct (String.eqb_spec k k0) as [->|_]; [|done].
      by rewrite A0.
Qed.

(** The keys of the cast update: the keys of the schema whose value is not
    [undefined]. *)
Lemma cast_set_fields (sch : schema) (o : obj) (id : nat) l n :
  omitUndefined = true →
  cast_set rt omitUndefined sch o id = Some (l, n) →
  l.*1 = (List.filter (λ kv : string * value,
            bool_decide (is_Some (assoc sch kv.1)) && negb (is_undefined kv.2)) o).*1.
Proof.
  intros Homit. revert id l n.
  induction o as [|[k0 v0] o IH]; simpl; intros id l n H.
  - by injection H as <- <-.
  - destruct (assoc sch k0) as [p0|] eqn:A0; simpl.
    + destruct (is_undefined v0) eqn:U; simpl.
      * destruct (cast_set _ _ _ o id) as [[l' n']|] eqn:E; [|done].
        simpl in H. rewrite Homit in H. injection H as <- <-. by eapply IH.
      * destruct (cast_path rt p0 id v0) as [[b id']|]; [|done]. simpl in H.
        destruct (cast_set _ _ _ o id') as [[l' n']|] eqn:E; [|done].
        simpl in H. injection H as <- <-. simpl. f_equal. by eapply IH.
    + by eapply IH.
Qed.

(** A [$set] whose values can all be cast is cast, and draws no id. *)
Lemma cast_set_total (sch : schema) (o : obj) (id : nat) :
  flat_keys sch o →
  Forall (λ kv : string * value,
            ∀ p, assoc sch kv.1 = Some p → is_Some (cast_flat rt p kv.2)) o →
  ∃ l, cast_set rt omitUndefined sch o id = Some (l, id).
Proof.
  induction o as [|[k0 v0] o IH]; simpl; intros Hflat Hcast; [by eexists|].
  apply Forall_cons in Hflat as [Hp0 Hflat]. apply Forall_cons in Hcast as [Hc0 Hcast].
  destruct (IH Hflat Hcast) as [l' El]. simpl in Hp0, Hc0.
  destruct (assoc sch k0) as [p0|] eqn:A0; [|by eexists].
  destruct (is_undefined v0); simpl.
  - rewrite El. simpl. by eexists.
  - rewrite (cast_path_flat p0) by (by apply Hp0).
    destruct (Hc0 p0 eq_refl) as [b ->]. simpl. rewrite El. simpl. by eexists.
Qed.

(** C2.  When the store drops [undefined] keys, a project update whose
    body has a truthy updatable field, whose values the schema can cast and
    whose project is stored answers 200 with the updated project and stores
    it in place of the old one; the cast update has exactly the updatable
    fields the body defines; each of them holds the cast of its new value,
    and every other path holds what it held. *)
Theorem project_update_sets_defined_fields (req : request) (st : mem) (p : doc) :
  omitUndefined = true →
  some_truthy req project_updatable →
  List.find (matches (project_query req)) (projects st) = Some p →
  Forall (λ k, is_Some (cast_at rt Project k (field req k))) project_updatable →
  ∃ p' l,
    updateProject req st =
      (res_status 200 (DocBody p'),
       set_coll Project (replace_first (matches (project_query req)) p' (projects st))
         (next_id st) st) ∧
    cast_update rt omitUndefined projectSchema (USet (pick req project_updatable))
      (next_id st) = Some (CSet l, next_id st) ∧
    l.*1 = List.filter (λ k, negb (is_undefined (field req k))) project_updatable ∧
    (∀ k, k ∈ project_updatable → field req k ≠ VUndefined →
          p' !! k = cast_at rt Project k (field req k)) ∧
    (∀ k, field req k = VUndefined ∨ k ∉ project_updatable → p' !! k = p !! k).
Proof.
  intros Homit Htruthy Hfind Hcast.
  assert (flat_keys projectSchema (pick req project_updatable)) as Hflat.
  { repeat constructor; simpl; by intros p0 [= <-]. }
  destruct (cast_set_total projectSchema (pick req project_updatable) (next_id st) Hflat)
    as [l El].
  { unfold project_updatable in Hcast. split_Forall.
    repeat constructor; simpl; intros p0 [= <-];
      match goal with
      | H : is_Some (cast_at rt _ ?k _) |- is_Some (cast_flat rt _ (field req ?k)) => exact H
      end. }
  assert (NoDup (pick req project_updatable).*1) as Hnd.
  { simpl. repeat (apply NoDup_cons; split; [set_solver|]). apply NoDup_nil_2. }
  exists (foldr (λ '(k, b) d, <[k:=b]> d) p l), l.
  split_and!.
  - rewrite updateProject_calls_store by done.
    change (Model_findOneAndUpdate Project (project_query req)
              (USet (pick req project_updatable)) st)
      with (mem_findOneAndUpdate rt omitUndefined Project (project_query req)
              (USet (pick req project_updatable)) st).
    unfold mem_findOneAndUpdate, cast_update. cbn [schema_of coll].
    rewrite El. simpl. by rewrite Hfind.
  - unfold cast_update. by rewrite El.
  - rewrite (cast_set_fields _ _ _ _ _ Homit El).
    unfold pick, project_updatable. simpl.
    by repeat (destruct (is_undefined (field req _)); simpl).
  - intros k Hk Hdef.
    rewrite (cast_set_apply _ _ _ _ _ _ _ Homit Hnd Hflat El).
    unfold cast_at. simpl schema_of.
    unfold project_updatable in Hk.
    assert (prop (pick req project_updatable) k = field req k) as ->.
    { set_unfold in Hk. by destruct Hk as [->|[->|[->|[->|[->|[]]]]]]. }
    apply is_undefined_false in Hdef. rewrite Hdef.
    set_unfold in Hk. by destruct Hk as [->|[->|[->|[->|[->|[]]]]]].
  - intros k Hk.
    rewrite (cast_set_apply _ _ _ _ _ _ _ Homit Hnd Hflat El).
    destruct (assoc projectSchema k) as [p0|]; [|done].
    destruct (decide (k ∈ project_updatable)) as [Hin|Hout].
    + destruct Hk as [Hk|Hk]; [|done].
      assert (prop (pick req project_updatable) k = field req k) as ->.
      { unfold project_updatable in Hin. set_unfold in Hin.
        by destruct Hin as [->|[->|[->|[->|[->|[]]]]]]. }
      by rewrite Hk.
    + rewrite prop_notin; [done|]. simpl. exact Hout.
Qed.


(** **** Creating a task *)

(** Saving a task looks at the tasks and at the id counter only, and
    leaves the other collections as they are. *)
Lemma save_task_frame (o : obj) (st st2 : mem) :
  tasks st2 = tasks st → next_id st2 = next_id st →
  (mem_save rt Task o st2).1 = (mem_save rt Task o st).1 ∧
  tasks (mem_save rt Task o st2).2 = tasks (mem_save rt Task o st).2 ∧
  spaces (mem_save rt Task o st2).2 = spaces st2 ∧
  projects (mem_save rt Task o st2).2 = projects st2.
Proof.
  intros Ht Hn. unfold mem_save. cbn [coll schema_of]. rewrite Ht, Hn.
  destruct (construct _ _ _ _ _) as [[d n]|]; [|done].
  destruct (negb _); [done|].
  by destruct (duplicate _ _ _).
Qed.

Lemma createTask_accepted (req : request) (st : mem) (ms : Z) :
  all_truthy req task_required →
  Forall (λ k, casts_to_text rt (field req k)) task_strings →
  castDate rt (field req "deadline") = Some (BDate ms) →
  (∀ s, castString rt (field req "taskId") = Some (BStr s) → unused "taskId" s (tasks st)) →
  ∃ d : doc,
    createTask req st =
      (res_status 201 (DocBody d),
       set_coll Task (tasks st ++ [d]) (S (next_id st)) st) ∧
    Forall (λ k, d !! k = castString rt (field req k)) task_strings ∧
    d !! "deadline" = Some (BDate ms) ∧
    d !! "comments" = Some (BArr []).
Proof.
  intros Ht Hs Hd Hfresh.
  rewrite createTask_calls_store by done.
  unfold task_strings, casts_to_text in Hs. unfold all_truthy, task_required in Ht.
  split_Forall.
  repeat match goal with
         | H : truthy (field req _) = true |- _ => apply truthy_defined in H
         | H : ∃ s, castString rt _ = Some (BStr s) ∧ s ≠ "" |- _ =>
             let s := fresh "s" in let C := fresh "C" in let N := fresh "N" in
             destruct H as (s & C & N); apply String.eqb_neq in N
         end.
  match goal with
  | C : castString rt (field req "taskId") = Some _ |- _ => specialize (Hfresh _ C)
  end.
  unfold pick, task_required. cbn [map].
  change (Model_save Task) with (mem_save rt Task).
  unfold mem_save. construct_steps rt.
  unfold valid_path, valid_leaf, duplicate. cbn. eval_lookups. cbn.
  repeat match goal with
         | N : String.eqb ?s "" = false |- context [String.eqb ?s ""] => rewrite N
         end.
  cbn.
  match type of Hfresh with
  | unused _ ?s _ => rewrite (unused_same_at _ s) by (done || by eval_lookups)
  end. cbn.
  eexists. split; [reflexivity|].
  split; [|by eval_lookups].
  repeat (apply Forall_cons_2; [|]); [..|apply Forall_nil_2];
    match goal with
    | C : castString rt (field req ?k) = Some _ |- _ !! ?k = castString rt (field req ?k) =>
        rewrite C; by eval_lookups
    end.
Qed.

(** C7.  Whether a task is created does not depend on the stored
    workspaces and projects: two stores with the same tasks give the same
    answer and the same tasks afterwards.  A request whose required fields
    are truthy, whose string fields cast to non-empty strings, whose deadline
    casts to a date and whose task id no stored task has is answered 201 with
    the created task, which is appended to the tasks, whatever workspaces and
    projects are stored. *)
Theorem createTask_checks_no_parent (req : request) (st : mem) :
  (∀ st2, tasks st2 = tasks st → next_id st2 = next_id st →
          (createTask req st2).1 = (createTask req st).1 ∧
          tasks (createTask req st2).2 = tasks (createTask req st).2) ∧
  (∀ ms,
     all_truthy req task_required →
     Forall (λ k, casts_to_text rt (field req k)) task_strings →
     castDate rt (field req "deadline") = Some (BDate ms) →
     (∀ s, castString rt (field req "taskId") = Some (BStr s) →
           unused "taskId" s (tasks st)) →
     ∃ d : doc,
       createTask req st =
         (res_status 201 (DocBody d),
          set_coll Task (tasks st ++ [d]) (S (next_id st)) st) ∧
       Forall (λ k, d !! k = castString rt (field req k)) task_strings ∧
       d !! "deadline" = Some (BDate ms)).
Proof.
  split.
  - intros st2 Ht Hn.
    destruct (decide (all_truthy req task_required)) as [H|H].
    + rewrite !createTask_calls_store by done.
      destruct (save_task_frame (pick req task_required) st st2 Ht Hn) as (H1 & H2 & _).
      change (Model_save Task) with (mem_save rt Task).
      destruct (mem_save rt Task _ st2) as [[d2|e2] st2'],
               (mem_save rt Task _ st) as [[d|e] st'];
        simpl in *; by simplify_eq.
    + rewrite !createTask_missing; [done| |].
      all: unfold all_truthy in H; apply not_Forall_Exists in H; [|intros k; apply _].
      all: eapply Exists_impl; [exact H|]; intros k Hk; simpl in Hk.
      all: by destruct (truthy (field req k)).
  - intros ms Ht Hs Hd Hfresh.
    destruct (createTask_accepted req st ms Ht Hs Hd Hfresh) as (d & H1 & H2 & H3 & _).
    by exists d.
Qed.

End InMemory.

(* ===================================================================== *)
(** ** 8. The handlers on concrete requests *)
(* ===================================================================== *)

(** Closed goals over a list of fields, by computation. *)
Ltac forall_compute :=
  unfold all_truthy, some_truthy, some_falsy, none_present, unused, used;
  repeat (apply Forall_cons_2; [vm_compute; first [reflexivity | discriminate | eauto]|]);
  try apply Forall_nil_2.

(** C10.  Create-project and create-task do not look at the path: two
    requests with the same body are handled alike on every store.  A project
    posted under /api/space/W1 with the body code W2 is stored with the code
    W2, listed for W2 and not for W1; so is a task, whose project id also
    comes from the body. *)
Theorem create_reads_codes_from_body :
  (∀ (S : Type) (any : Store S) ps ps' b (st : S),
     createProject {| params := ps; body := b |} st =
     createProject {| params := ps'; body := b |} st) ∧
  (∀ (S : Type) (any : Store S) ps ps' b (st : S),
     createTask {| params := ps; body := b |} st =
     createTask {| params := ps'; body := b |} st) ∧
  (param req_P2 "SpCode" = "W1" ∧ field req_P2 "SpCode" = VStr "W2" ∧
   createProject (Store0 := store0) req_P2 empty_mem = (res_status 201 (DocBody doc_P2), mem_P2) ∧
   doc_P2 !! "SpCode" = Some (BStr "W2") ∧
   listProjects (Store0 := store0) get_W2 mem_P2 = (res_status 200 (DocsBody [doc_P2]), mem_P2) ∧
   listProjects (Store0 := store0) get_W1 mem_P2 = (res_status 200 (DocsBody []), mem_P2)) ∧
  (param req_T1 "SpCode" = "W1" ∧ field req_T1 "SpCode" = VStr "W2" ∧
   createTask (Store0 := store0) req_T1 empty_mem = (res_status 201 (DocBody doc_T1), mem_T1) ∧
   doc_T1 !! "SpCode" = Some (BStr "W2") ∧ doc_T1 !! "projectId" = Some (BStr "P9") ∧
   listTasks (Store0 := store0) get_W2 mem_T1 = (res_status 200 (DocsBody [doc_T1]), mem_T1) ∧
   listTasks (Store0 := store0) get_W1 mem_T1 = (res_status 200 (DocsBody []), mem_T1)).
Proof.
  split_and!; [reflexivity|reflexivity|..]; vm_compute; reflexivity.
Qed.

(** Counterexample to C1 as stated: the create-project request with an empty
    members array is not rejected; the answer is 201 and the project is
    stored. *)
Lemma createProject_empty_members_is_stored :
  field req_P1 "members" = VArr [] ∧
  createProject (Store0 := store0) req_P1 empty_mem = (res_status 201 (DocBody doc_P1), mem_P1).
Proof. split; [reflexivity|]. vm_compute; reflexivity. Qed.

(** Counterexample to C2 as stated: a body that provides only [name], as the
    empty string, is answered 400, and the stored name stays. *)
Lemma updateProject_falsy_name_is_not_stored :
  body req_P1_name_empty !! "name" = Some (VStr "") ∧
  updateProject (Store0 := store0) req_P1_name_empty mem_P1 =
    (res_status 400 (ErrorBody "No fields to update" None), mem_P1) ∧
  projects mem_P1 = [doc_P1] ∧
  doc_P1 !! "name" = Some (BStr "Site").
Proof. split_and!; vm_compute; reflexivity. Qed.

(** When the store keeps [undefined] keys (Mongoose 5 without
    [omitUndefined]), the fields the body leaves out are stored as [null]. *)
Lemma updateProject_absent_fields_when_undefined_is_kept :
  ∃ d : doc,
    updateProject (Store0 := MemStore rt0 false) req_P1_done mem_P1 =
      (res_status 200 (DocBody d),
       {| spaces := []; projects := [d]; tasks := []; next_id := 1 |}) ∧
    d !! "status" = Some (BStr "done") ∧
    d !! "name" = Some BNull ∧
    d !! "projectCode" = Some (BStr "P1").
Proof. eexists. split_and!; vm_compute; reflexivity. Qed.

(** Counterexample to C3 as stated: on a store whose calls throw "boom", the
    get-workspace handler answers 500 without details, and the create-task
    handler answers 500, not 400. *)
Lemma store_error_without_details_and_createTask_500 :
  store_throws (Store0 := DownStore "boom") rt0 GetSpace get_W1 () "boom" () ∧
  getSpace (Store0 := DownStore "boom") get_W1 () =
    (res_status 500 (ErrorBody "Error fetching Space details" None), ()) ∧
  store_throws (Store0 := DownStore "boom") rt0 CreateTask req_T1 () "boom" () ∧
  createTask (Store0 := DownStore "boom") req_T1 () =
    (res_status 500 (ErrorBody "Error creating task" (Some "boom")), ()).
Proof.
  split; [split; reflexivity|].
  split; [reflexivity|].
  split; [split; [forall_compute|reflexivity]|].
  vm_compute; reflexivity.
Qed.

(** Counterexample to C7 as stated: every field of the request is truthy,
    but a task with its id is stored, and the answer is 500. *)
Lemma createTask_duplicate_taskId_fails :
  all_truthy req_T1 task_required ∧
  createTask (Store0 := store0) req_T1 mem_T1 =
    (res_status 500
       (ErrorBody "Error creating task" (Some "E11000 duplicate key error collection: Tasks")),
     mem_T1).
Proof. split; [forall_compute|]. vm_compute; reflexivity. Qed.

(** **** The theorems at concrete requests *)

Lemma createProject_required_fields_witness :
  createProject (Store0 := store0) req_P1_empty empty_mem =
    (res_status 400 (ErrorBody "Missing required fields" None), empty_mem) ∧
  createProject (Store0 := store0) req_P1 empty_mem = (res_status 201 (DocBody doc_P1), mem_P1).
Proof.
  destruct (createProject_required_fields (Store0 := store0) req_P1_empty empty_mem)
    as (H1 & _).
  destruct (createProject_required_fields (Store0 := store0) req_P1 empty_mem)
    as (_ & _ & _ & H4).
  split.
  - apply H1. apply Exists_cons_hd. vm_compute; reflexivity.
  - rewrite H4 by forall_compute. vm_compute; reflexivity.
Defined.

Lemma project_update_sets_defined_fields_witness :
  ∃ p' : doc,
    updateProject (Store0 := store0) req_P1_done mem_P1 =
      (res_status 200 (DocBody p'),
       {| spaces := []; projects := [p']; tasks := []; next_id := 1 |}) ∧
    p' !! "status" = Some (BStr "done") ∧
    p' !! "name" = Some (BStr "Site") ∧
    p' !! "members" = Some (BArr []).
Proof.
  destruct (project_update_sets_defined_fields rt0 true req_P1_done mem_P1 doc_P1)
    as (p' & l & H1 & _ & _ & H4 & H5).
  - reflexivity.
  - do 4 apply Exists_cons_tl. apply Exists_cons_hd. vm_compute; reflexivity.
  - vm_compute; reflexivity.
  - forall_compute.
  - exists p'. split_and!.
    + exact H1.
    + rewrite (H4 "status"); [vm_compute; reflexivity| |vm_compute; discriminate].
      unfold project_updatable. repeat constructor.
    + rewrite (H5 "name"); [vm_compute; reflexivity|left; vm_compute; reflexivity].
    + rewrite (H5 "members"); [vm_compute; reflexivity|left; vm_compute; reflexivity].
Defined.

Lemma store_error_response_witness :
  getSpace (Store0 := DownStore "boom") get_W1 () =
    (res_status 500 (ErrorBody "Error fetching Space details" None), ()) ∧
  createSpace (Store0 := store0) req_W1 mem_W1 =
    (res_status 400
       (ErrorBody "Error creating Space" (Some "E11000 duplicate key error collection: Spaces")),
     mem_W1).
Proof.
  split.
  - apply (store_error_response (Store0 := DownStore "boom") rt0 GetSpace get_W1 () () "boom").
    + discriminate.
    + split; reflexivity.
  - apply (store_error_response (Store0 := store0) rt0 CreateSpace req_W1 mem_W1 mem_W1).
    + discriminate.
    + split; [forall_compute|vm_compute; reflexivity].
Defined.

Lemma update_without_fields_is_rejected_witness :
  updateProject (Store0 := store0) req_P1_empty mem_P1 =
    (res_status 400 (ErrorBody "No fields to update" None), mem_P1) ∧
  updateTask (Store0 := store0) req_T1_empty mem_T1 =
    (res_status 400 (ErrorBody "No fields to update" None), mem_T1).
Proof.
  split.
  - apply (update_without_fields_is_rejected (Store0 := store0) req_P1_empty mem_P1).
    forall_compute.
  - apply (update_without_fields_is_rejected (Store0 := store0) req_T1_empty mem_T1).
    forall_compute.
Defined.

Lemma workspace_create_then_get_witness :
  (∃ (d : doc) (st' : mem),
     createSpace (Store0 := store0) req_W1 empty_mem = (res_status 201 (DocBody d), st') ∧
     d !! "SpCode" = Some (BStr "W1") ∧ d !! "name" = Some (BStr "Acme") ∧
     getSpace (Store0 := store0) get_W1 st' = (res_status 200 (DocBody d), st')) ∧
  (∃ p, createSpace (Store0 := store0) req_W1 mem_W1 = (res_status 400 p, mem_W1)).
Proof.
  split.
  - destruct (workspace_create_then_get rt0 true req_W1 empty_mem "W1") as [H _];
      [vm_compute; reflexivity|].
    destruct (H "Acme") as (d & st' & H1 & H2 & H3 & H4);
      [forall_compute|done|vm_compute; reflexivity|done|apply Forall_nil_2|].
    exists d, st'. split_and!; try done. apply H4. vm_compute; reflexivity.
  - destruct (workspace_create_then_get rt0 true req_W1 mem_W1 "W1") as [_ H];
      [vm_compute; reflexivity|].
    apply H. apply Exists_cons_hd. vm_compute; reflexivity.
Defined.

Lemma task_comment_on_missing_task_witness :
  addTaskComment (Store0 := store0) rt0 req_comment mem_T1 =
    (res_status 404 (ErrorBody "Task not found" None), mem_T1) ∧
  addTaskComment (Store0 := store0) rt0 req_comment_no_text mem_T1 =
    (res_status 400 (ErrorBody "Author, and text are required" None), mem_T1).
Proof.
  split.
  - apply (task_comment_on_missing_task rt0 true req_comment mem_T1).
    + forall_compute.
    + apply Forall_cons_2; [|apply Forall_nil_2].
      intros [H _]. vm_compute in H. discriminate.
  - apply (task_comment_on_missing_task rt0 true req_comment_no_text mem_T1).
    apply Exists_cons_tl, Exists_cons_hd. vm_compute; reflexivity.
Defined.

Lemma createTask_checks_no_parent_witness :
  spaces empty_mem = [] ∧ projects empty_mem = [] ∧
  ∃ d : doc,
    createTask (Store0 := store0) req_T1 empty_mem =
      (res_status 201 (DocBody d), set_coll Task [d] 1 empty_mem) ∧
    d !! "projectId" = Some (BStr "P9") ∧
    d !! "deadline" = Some (BDate 1735689600000).
Proof.
  split; [reflexivity|]. split; [reflexivity|].
  destruct (createTask_checks_no_parent rt0 true req_T1 empty_mem) as [_ H].
  destruct (H 1735689600000%Z) as (d & H1 & H2 & H3).
  - forall_compute.
  - repeat (apply Forall_cons_2;
              [hnf; eexists; split; [vm_compute; reflexivity|discriminate]|]).
    apply Forall_nil_2.
  - vm_compute; reflexivity.
  - intros s _. apply Forall_nil_2.
  - exists d. split_and!; [exact H1| |exact H3].
    apply Forall_cons in H2 as [_ H2]. apply Forall_cons in H2 as [H2 _].
    rewrite H2. vm_compute; reflexivity.
Defined.

Lemma list_without_children_is_empty_witness :
  listProjects (Store0 := store0) get_W1 mem_P2 = (res_status 200 (DocsBody []), mem_P2) ∧
  listTasks (Store0 := store0) get_W1 mem_T1 = (res_status 200 (DocsBody []), mem_T1).
Proof.
  split.
  - apply (list_without_children_is_empty rt0 true get_W1 mem_P2).
    forall_compute.
  - apply (list_without_children_is_empty rt0 true get_W1 mem_T1).
    forall_compute.
Defined.

(* ===================================================================== *)
(** ** 9. The store across requests *)
(* ===================================================================== *)

(** *** 9.1 An invariant of the in-memory store *)

Section StoreInvariant.
Variable rt : runtime.
Variable omitUndefined : bool.

Let store : Store mem := MemStore rt omitUndefined.
#[local] Existing Instance store.

Lemma cast_path_mono (p : pathspec) (id n : nat) (v : value) (b : bson) :
  cast_path rt p id v = Some (b, n) → (id ≤ n)%nat.
Proof.
  destruct p as [t|t|sub]; simpl.
  - destruct (cast_leaf rt (type t) v); intros; simplify_eq/=; lia.
  - destruct (cast_array rt (type t) v); intros; simplify_eq/=; lia.
  - unfold cast_docarray. intros H.
    destruct v;
      first [ apply fmap_Some in H as (x & _ & Heq); simplify_eq/=; lia
            | simplify_eq/=; lia ].
Qed.

Lemma construct_spec (sch : schema) (o : obj) (d d' : doc) (id n : nat) :
  construct rt sch o d id = Some (d', n) →
  (id ≤ n)%nat ∧ ∀ k, k ∉ sch.*1 → d' !! k = d !! k.
Proof.
  revert d id. induction sch as [|[k0 p] sch IH]; simpl; intros d id H.
  - injection H as <- <-. split; [lia|done].
  - destruct (is_undefined (prop o k0)).
    + apply IH in H as [Hn Hk]. split; [done|]. intros k Hnot.
      rewrite Hk by set_solver.
      destruct (absent_path rt p); simpl; [|done].
      apply lookup_insert_ne. set_solver.
    + destruct (cast_path rt p id (prop o k0)) as [[b id']|] eqn:C; simpl in H; [|done].
      apply cast_path_mono in C.
      apply IH in H as [Hn Hk]. split; [lia|]. intros k Hnot.
      rewrite Hk by set_solver. apply lookup_insert_ne. set_solver.
Qed.

Lemma schema_has_no_id (m : model) :
  ("_id" ∉ (schema_of m).*1) ∧ ("__v" ∉ (schema_of m).*1).
Proof.
  destruct m; simpl; split; intros H;
    repeat (apply elem_of_cons in H as [H|H]; [discriminate|]);
    by apply elem_of_nil in H.
Qed.

(** A failed save leaves the store as it was. *)
Lemma mem_save_throw (m : model) (o : obj) (st st' : mem) (e : string) :
  mem_save rt m o st = (Throw e, st') → st' = st.
Proof.
  unfold mem_save.
  destruct (construct _ _ _ _ _) as [[d n]|]; [|by intros [= _ <-]].
  destruct (negb _); [by intros [= _ <-]|].
  destruct (duplicate _ _ _); [by intros [= _ <-]|done].
Qed.

Lemma validate_In (sch : schema) (d : doc) (k : string) (p : pathspec) :
  validate sch d = true → In (k, p) sch → valid_path d (k, p) = true.
Proof. unfold validate. rewrite forallb_forall. intros H Hin. by apply H. Qed.

Lemma unique_path_spec (m : model) (k : string) :
  k ∈ unique_paths (schema_of m) →
  In (k, Leaf (reqd_unique String_)) (schema_of m) ∧ k ≠ "__v" ∧ k ≠ "_id".
Proof.
  destruct m; simpl; intros H;
    apply list_elem_of_singleton in H as ->; (split; [|done]); simpl; tauto.
Qed.

(** What a successful save does: the new document carries the next id, it
    is appended to its collection, its unique paths hold strings no stored
    document has, and nothing else changes. *)
Lemma mem_save_ok (m : model) (o : obj) (st st' : mem) (d : doc) :
  mem_save rt m o st = (Ok d, st') →
  d !! "_id" = Some (BId (next_id st)) ∧
  (next_id st < next_id st')%nat ∧
  coll m st' = (coll m st ++ [d])%list ∧
  (∀ m', m' ≠ m → coll m' st' = coll m' st) ∧
  (∀ k, k ∈ unique_paths (schema_of m) → d !! k ∉ key_view k (coll m st)).
Proof.
  unfold mem_save.
  destruct (construct _ _ _ _ _) as [[d0 n]|] eqn:C; [|done].
  destruct (negb _) eqn:V; [done|]. apply negb_false_iff in V.
  destruct (duplicate _ _ _) eqn:D; [done|].
  intros [= <- <-].
  apply construct_spec in C as [Hn Hk].
  destruct (schema_has_no_id m) as [Hid Hv].
  split_and!.
  - rewrite lookup_insert_ne by done. rewrite Hk by done. apply lookup_singleton_eq.
  - destruct m; simpl; lia.
  - by destruct m.
  - intros m' Hm'. by destruct m, m'.
  - intros k Hk'. destruct (unique_path_spec m k Hk') as (Hin & Hne & _).
    pose proof (validate_In _ _ _ _ V Hin) as Hp.
    unfold valid_path, valid_leaf in Hp. simpl in Hp.
    destruct (d0 !! k) as [[| |s| | | |]|] eqn:E; try discriminate.
    rewrite lookup_insert_ne by done. rewrite E.
    unfold duplicate in D.
    assert (existsb (same_at k d0) (coll m st) = false) as Hex.
    { destruct (existsb (same_at k d0) (coll m st)) eqn:X; [|done].
      rewrite <- D. symmetry. apply existsb_exists. exists k.
      split; [|done]. by apply list_elem_of_In. }
    unfold key_view. intros Hin'. apply list_elem_of_fmap in Hin' as (d' & Hd' & Hin').
    assert (existsb (same_at k d0) (coll m st) = true) as Hs; [|congruence].
    apply existsb_exists. exists d'. split; [by apply list_elem_of_In|].
    rewrite (same_at_str k s) by done. by apply has_str_true.
Qed.


Lemma cast_set_mono (sch : schema) (o : obj) (id n : nat) l :
  cast_set rt omitUndefined sch o id = Some (l, n) → (id ≤ n)%nat.
Proof.
  revert id l n. induction o as [|[k v] o IH]; simpl; intros id l n H.
  - simplify_eq. lia.
  - destruct (assoc sch k) as [p|]; [|by eapply IH].
    destruct (is_undefined v).
    + destruct (cast_set _ _ _ o id) as [[l' n']|] eqn:E; simplify_eq/=. by eapply IH.
    + destruct (cast_path rt p id v) as [[b id']|] eqn:C; simplify_eq/=.
      destruct (cast_set _ _ _ o id') as [[l' n']|] eqn:E; simplify_eq/=.
      apply cast_path_mono in C. apply IH in E. lia.
Qed.

Lemma cast_update_spec (sch : schema) (u : update) (id n : nat) (c : change) :
  cast_update rt omitUndefined sch u id = Some (c, n) →
  (id ≤ n)%nat ∧ written c ⊆ touched u.
Proof.
  destruct u as [o|k o]; simpl; intros H.
  - destruct (cast_set _ _ _ o id) as [[l n']|] eqn:E; simplify_eq/=.
    split; [by eapply cast_set_mono|by eapply cast_set_keys].
  - destruct (assoc sch k) as [[t|t|sub]|]; simplify_eq/=.
    + destruct (cast_leaf rt (type t) (VObj o)); simplify_eq/=. split; [lia|done].
    + destruct (cast_paths rt sub o); simplify_eq/=. split; [lia|done].
Qed.

Lemma apply_change_frame (c : change) (d d' : doc) (k : string) :
  apply_change c d = Some d' → k ∉ written c → d' !! k = d !! k.
Proof.
  destruct c as [l|k0 b]; simpl; intros H Hk.
  - simplify_eq. by apply lookup_set_other.
  - assert (k0 ≠ k) by set_solver.
    destruct (d !! k0) as [[]|]; simplify_eq; by apply lookup_insert_ne.
Qed.

Lemma bump_frame (d : doc) (k : string) : k ≠ "__v" → bump d !! k = d !! k.
Proof.
  intros Hk. unfold bump. destruct (d !! "__v") as [[]|]; try done.
  by apply lookup_insert_ne.
Qed.

Lemma key_view_replace_first (k : string) (P : doc → bool) (d' : doc) (l : list doc) :
  (∀ d, List.find P l = Some d → d' !! k = d !! k) →
  key_view k (replace_first P d' l) = key_view k l.
Proof.
  unfold key_view. induction l as [|d l IH]; simpl; [done|]. intros H.
  destruct (P d); simpl; f_equal; [by apply H|by apply IH].
Qed.

(** An update either leaves the store as it was, or replaces the first
    match by a document that differs from it only on the paths the update
    writes. *)
Lemma mem_findOneAndUpdate_cases (m : model) (q : query) (u : update) (st : mem) :
  let r := mem_findOneAndUpdate rt omitUndefined m q u st in
  (r.2 = st ∧ ∀ d, r.1 ≠ Ok (Some d)) ∨
  (∃ d d', r.1 = Ok (Some d') ∧
           List.find (matches q) (coll m st) = Some d ∧
           (∀ k, k ∉ touched u → d' !! k = d !! k) ∧
           coll m r.2 = replace_first (matches q) d' (coll m st) ∧
           (next_id st ≤ next_id r.2)%nat ∧
           ∀ m', m' ≠ m → coll m' r.2 = coll m' st).
Proof.
  unfold mem_findOneAndUpdate.
  destruct (cast_update _ _ _ u _) as [[c n]|] eqn:C; simpl; [|by left].
  destruct (List.find _ _) as [d|] eqn:F; simpl; [|by left].
  destruct (apply_change c d) as [d'|] eqn:A; simpl; [|by left].
  right. exists d, d'. apply cast_update_spec in C as [Hn Hw].
  split_and!; try done.
  - intros k Hk. eapply apply_change_frame; [done|]. set_solver.
  - by destruct m.
  - by destruct m.
  - intros m' Hm'. by destruct m, m'.
Qed.

(** Saving a pushed comment either leaves the store as it was, or replaces
    the stored document that has the id of the loaded one by a document that
    differs from it only in the array and in the version key. *)
Lemma mem_push_save_cases (m : model) (t : doc) (k : string) (o : obj) (st : mem) :
  let r := mem_push_save rt omitUndefined m t k o st in
  (r.2 = st ∧ ∀ d, r.1 ≠ Ok d) ∨
  (∃ s s' d, r.1 = Ok d ∧
             List.find (same_at "_id" t) (coll m st) = Some s ∧
             (∀ k', k' ≠ k → k' ≠ "__v" → s' !! k' = s !! k' ∧ d !! k' = t !! k') ∧
             coll m r.2 = replace_first (same_at "_id" t) s' (coll m st) ∧
             (next_id st ≤ next_id r.2)%nat ∧
             ∀ m', m' ≠ m → coll m' r.2 = coll m' st).
Proof.
  unfold mem_push_save.
  destruct (cast_update _ _ _ _ _) as [[c n]|] eqn:C; simpl; [|by left].
  destruct (apply_change c t) as [d1|] eqn:A1; simpl; [|by left].
  destruct (negb _); simpl; [by left|].
  destruct (List.find _ _) as [s|] eqn:F; simpl; [|by left].
  destruct (apply_change c s) as [s1|] eqn:A; simpl; [|by left].
  right. exists s, (bump s1), (bump d1). apply cast_update_spec in C as [Hn Hw].
  simpl in Hw.
  split_and!; try done.
  - intros k' Hk Hv. rewrite !bump_frame by done.
    split; (eapply apply_change_frame; [done|]); set_solver.
  - by destruct m.
  - by destruct m.
  - intros m' Hm'. by destruct m, m'.
Qed.

Lemma ids_below_mono (n n' : nat) (l : list doc) :
  (n ≤ n')%nat → ids_below n l → ids_below n' l.
Proof.
  intros Hn H. unfold ids_below in *. eapply Forall_impl; [exact H|].
  intros x (i & -> & Hi). exists i. split; [done|lia].
Qed.

Lemma wf_same_views (st st' : mem) :
  wf st → (next_id st ≤ next_id st')%nat →
  (∀ m k, k ∈ protected m → key_view k (coll m st') = key_view k (coll m st)) →
  wf st'.
Proof.
  intros Hwf Hn Hview m. destruct (Hwf m) as (Hids & Hd & Hu).
  assert (key_view "_id" (coll m st') = key_view "_id" (coll m st)) as Hid.
  { apply Hview. unfold protected. set_solver. }
  split_and!.
  - unfold ids_below. rewrite Hid. by apply (ids_below_mono (next_id st)).
  - unfold distinct_at. by rewrite Hid.
  - apply Forall_forall. intros k Hk. unfold distinct_at.
    rewrite Hview by (unfold protected; set_solver).
    by eapply Forall_forall in Hu.
Qed.

Lemma wf_save (m : model) (o : obj) (st st' : mem) (d : doc) :
  wf st → mem_save rt m o st = (Ok d, st') → wf st'.
Proof.
  intros Hwf H. apply mem_save_ok in H as (Hid & Hn & Hc & Ho & Hu).
  intros m0. destruct (Hwf m0) as (Hids & Hd & Hun).
  destruct (decide (m0 = m)) as [->|Hne].
  - rewrite Hc. unfold ids_below, distinct_at, key_view in *.
    split_and!.
    + rewrite fmap_app. apply Forall_app. split.
      * apply (ids_below_mono (next_id st)); [lia|done].
      * apply Forall_singleton. exists (next_id st). by split.
    + rewrite fmap_app. apply NoDup_app. split_and!; [done| |apply NoDup_singleton].
      intros x Hx Hx'. apply list_elem_of_singleton in Hx'. subst.
      eapply Forall_forall in Hids as (i & Hi & Hlt); [|done]. simplify_eq. lia.
    + apply Forall_forall. intros k Hk.
      rewrite fmap_app. apply NoDup_app.
      split_and!; [by eapply Forall_forall in Hun| |apply NoDup_singleton].
      intros x Hx Hx'. apply list_elem_of_singleton in Hx'. subst.
      by apply (Hu k).
  - rewrite (Ho m0) by done. split_and!; try done.
    apply (ids_below_mono (next_id st)); [lia|done].
Qed.

Lemma wf_update (m : model) (q : query) (u : update) (st st' : mem) (d : doc) :
  wf st → Forall (λ k, k ∉ protected m) (touched u) →
  mem_findOneAndUpdate rt omitUndefined m q u st = (Ok (Some d), st') → wf st'.
Proof.
  intros Hwf Hp H.
  destruct (mem_findOneAndUpdate_cases m q u st) as [[_ Hno]|(d0 & d' & _ & F & Hk & Hc & Hn & Ho)];
    rewrite H in *; simpl in *; [by destruct (Hno d)|].
  apply (wf_same_views st); [done|done|].
  intros m0 k Hin. destruct (decide (m0 = m)) as [->|Hne]; [|by rewrite Ho].
  rewrite Hc. apply key_view_replace_first. intros d1 Hd1. simplify_eq.
  apply Hk. intros Hin'. by eapply Forall_forall in Hp.
Qed.

Lemma comments_not_protected (m : model) (k : string) :
  k ∈ protected m → k ≠ "comments" ∧ k ≠ "__v".
Proof.
  unfold protected. intros H. apply elem_of_cons in H as [->|H]; [done|].
  by destruct (unique_path_spec m k H) as (Hin & ? & ?); destruct m; simpl in H;
    apply list_elem_of_singleton in H as ->.
Qed.

Lemma wf_push (m : model) (t : doc) (o : obj) (st st' : mem) (d : doc) :
  wf st → mem_push_save rt omitUndefined m t "comments" o st = (Ok d, st') → wf st'.
Proof.
  intros Hwf H.
  destruct (mem_push_save_cases m t "comments" o st)
    as [[_ Hno]|(s & s' & d' & _ & F & Hk & Hc & Hn & Ho)];
    rewrite H in *; simpl in *; [by destruct (Hno d)|].
  apply (wf_same_views st); [done|done|].
  intros m0 k Hin. destruct (decide (m0 = m)) as [->|Hne]; [|by rewrite Ho].
  rewrite Hc. apply key_view_replace_first. intros d1 Hd1. simplify_eq.
  destruct (comments_not_protected m k Hin) as [H1 H2].
  by apply Hk.
Qed.

(** Every successful write of a handler keeps the store well formed. *)
Lemma wf_mutation (st st' : mem) :
  wf st → mutation rt omitUndefined st st' → wf st'.
Proof.
  intros Hwf [(m & o & d & H)|[(m & q & u & d & Hp & H)|(m & t & o & d & H)]].
  - by eapply wf_save.
  - by eapply wf_update.
  - by eapply wf_push.
Qed.

End StoreInvariant.

(** *** 9.2 What a handler does to the store *)

Section EveryStoreMore.
Context {S : Type} `{!Store S}.

Lemma addProjectComment_missing (rt : runtime) (req : request) (st : S) :
  truthy (field req "comment") = false →
  addProjectComment rt req st = (res_status 400 (ErrorBody "Comment is required" None), st).
Proof. intros H. unfold addProjectComment, try_catch. by rewrite H. Qed.

Lemma not_all_truthy (req : request) (ks : list string) :
  ¬ all_truthy req ks → some_falsy req ks.
Proof.
  unfold all_truthy, some_falsy. intros H.
  apply not_Forall_Exists in H; [|intros k; apply _].
  eapply Exists_impl; [exact H|]. intros k Hk. simpl in Hk.
  by destruct (truthy (field req k)).
Qed.

Lemma not_some_truthy (req : request) (ks : list string) :
  ¬ some_truthy req ks → Forall (λ k, truthy (field req k) = false) ks.
Proof.
  unfold some_truthy. intros H.
  apply not_Exists_Forall in H; [|intros k; apply _].
  eapply Forall_impl; [exact H|]. intros k Hk. simpl in Hk.
  by destruct (truthy (field req k)).
Qed.

End EveryStoreMore.

Section Outcomes.
Variable rt : runtime.
Variable omitUndefined : bool.

Let store : Store mem := MemStore rt omitUndefined.
#[local] Existing Instance store.

Ltac not_protected :=
  apply Forall_forall; intros k Hk Hp; unfold protected in Hp; simpl in Hk, Hp;
  repeat (apply elem_of_cons in Hp as [->|Hp];
          [repeat (apply elem_of_cons in Hk as [Hk|Hk]; [discriminate|]);
           by apply elem_of_nil in Hk|]);
  by apply elem_of_nil in Hp.

Lemma save_outcome (m : model) (o : obj) (st : mem) (text : string) (c : nat) :
  let r := match mem_save rt m o st with
           | (Ok d, st') => (res_status 201 (DocBody d), st')
           | (Throw e, st') => (res_status c (ErrorBody text (Some e)), st')
           end in
  r.2 = st ∨ ((status r.1 < 400)%nat ∧ mutation rt omitUndefined st r.2).
Proof.
  destruct (mem_save rt m o st) as [[d|e] st'] eqn:E; simpl.
  - right. split; [lia|]. left. by exists m, o, d.
  - left. by eapply mem_save_throw.
Qed.

Lemma update_outcome (m : model) (q : query) (u : update) (st : mem)
    (missing text : string) :
  Forall (λ k, k ∉ protected m) (touched u) →
  let r := match mem_findOneAndUpdate rt omitUndefined m q u st with
           | (Ok None, st') => (res_status 404 (ErrorBody missing None), st')
           | (Ok (Some d), st') => (res_json (DocBody d), st')
           | (Throw e, st') => (res_status 400 (ErrorBody text (Some e)), st')
           end in
  r.2 = st ∨ ((status r.1 < 400)%nat ∧ mutation rt omitUndefined st r.2).
Proof.
  intros Hp.
  destruct (mem_findOneAndUpdate_cases rt omitUndefined m q u st)
    as [[Hst Hno]|(d0 & d' & Hr & _)].
  - left. destruct (mem_findOneAndUpdate _ _ _ _ _ _) as [[[d|]|e] st']; simpl in *;
      [by destruct (Hno d)|done|done].
  - destruct (mem_findOneAndUpdate _ _ _ _ _ _) as [[[d|]|e] st'] eqn:E; simpl in *;
      try discriminate.
    right. split; [lia|]. right. left. by exists m, q, u, d.
Qed.

(** A handler either leaves the store as it was, or answers with a status
    below 400 after one successful write. *)
Lemma handler_outcome (op : operation) (req : request) (st : mem) :
  let r := handler rt op req st in
  r.2 = st ∨ ((status r.1 < 400)%nat ∧ mutation rt omitUndefined st r.2).
Proof.
  destruct op; simpl.
  - left. unfold getSpace, try_catch, bind, await, ret. simpl.
    by destruct (List.find _ _).
  - destruct (decide (all_truthy req space_required)) as [H|H].
    + rewrite createSpace_calls_store by done. apply save_outcome.
    + left. rewrite createSpace_missing; [done|by apply not_all_truthy].
  - by left.
  - left. unfold getProject, try_catch, bind, await, ret. simpl.
    by destruct (List.find _ _).
  - destruct (decide (all_truthy req project_required)) as [H|H].
    + rewrite createProject_calls_store by done. apply save_outcome.
    + left. rewrite createProject_missing; [done|by apply not_all_truthy].
  - destruct (decide (some_truthy req project_updatable)) as [H|H].
    + rewrite updateProject_calls_store by done. apply update_outcome. not_protected.
    + left. rewrite updateProject_rejects; [done|by apply not_some_truthy].
  - by left.
  - left. unfold getTask, try_catch, bind, await, ret. simpl.
    by destruct (List.find _ _).
  - destruct (decide (all_truthy req task_required)) as [H|H].
    + rewrite createTask_calls_store by done. apply save_outcome.
    + left. rewrite createTask_missing; [done|by apply not_all_truthy].
  - destruct (decide (some_truthy req task_updatable)) as [H|H].
    + rewrite updateTask_calls_store by done. apply update_outcome. not_protected.
    + left. rewrite updateTask_rejects; [done|by apply not_some_truthy].
  - destruct (truthy (field req "comment")) eqn:H.
    + rewrite addProjectComment_calls_store by done. apply update_outcome. not_protected.
    + left. by rewrite addProjectComment_missing.
  - destruct (decide (all_truthy req ["author"; "text"])) as [H|H].
    + rewrite addTaskComment_calls_store by done. simpl. unfold mem_findOne. simpl.
      destruct (List.find _ _) as [t|]; [|by left].
      destruct (mem_push_save_cases rt omitUndefined Task t "comments"
                  (pick req ["author"; "text"] ++ [("timestamp", VNum (Date_now rt))]) st)
        as [[Hst Hno]|(s & s' & d' & Hr & _)].
      * left. destruct (mem_push_save _ _ _ _ _ _ _) as [[d|e] st']; simpl in *;
          [by destruct (Hno d)|done].
      * destruct (mem_push_save _ _ _ _ _ _ _) as [[d|e] st'] eqn:E; simpl in *;
          try discriminate.
        right. split; [lia|]. right. right. by eexists Task, t, _, d.
    + left. rewrite addTaskComment_missing; [done|by apply not_all_truthy].
Qed.

Lemma handler_wf (op : operation) (req : request) (st : mem) :
  wf st → wf (handler rt op req st).2.
Proof.
  intros Hwf. destruct (handler_outcome op req st) as [->|[_ Hm]]; [done|].
  by eapply wf_mutation.
Qed.

(** X1.  A handler that answers with a status of 400 or more has left the
    store as it was: no error response comes with a partial write. *)
Theorem error_response_leaves_store (op : operation) (req : request) (st : mem) :
  (400 ≤ status (handler rt op req st).1)%nat → (handler rt op req st).2 = st.
Proof.
  intros Hs. destruct (handler_outcome op req st) as [H|[Hlt _]]; [done|lia].
Qed.

End Outcomes.

Lemma wf_empty : wf empty_mem.
Proof.
  intros m. unfold ids_below, distinct_at, key_view.
  destruct m; simpl; split_and!; try apply Forall_nil_2; try apply NoDup_nil_2;
    repeat (apply Forall_cons_2; [apply NoDup_nil_2|]); apply Forall_nil_2.
Qed.

Lemma serve_wf (rt : runtime) (omitUndefined : bool) reqs (st : mem) :
  wf st → wf (serve rt omitUndefined reqs st).
Proof.
  revert st. induction reqs as [|[[now op] req] reqs IH]; simpl; intros st Hwf; [done|].
  apply IH. by apply handler_wf.
Qed.

Lemma distinct_at_lookup (k : string) (l : list doc) (i j : nat) (d d' : doc) :
  distinct_at k l → l !! i = Some d → l !! j = Some d' → d !! k = d' !! k → i = j.
Proof.
  unfold distinct_at, key_view. intros Hnd Hi Hj Hk.
  eapply NoDup_lookup; [exact Hnd| |].
  - rewrite list_lookup_fmap, Hi. reflexivity.
  - rewrite list_lookup_fmap, Hj. simpl. by rewrite Hk.
Qed.

(** X2.  In every store reached from the empty one by handling requests
    one after another, no two workspaces have the same [SpCode], no two
    projects the same [projectCode], in whatever workspace they are, no two
    tasks the same [taskId], and no two documents of a collection the same
    [_id]. *)
Theorem codes_stay_unique (rt : runtime) (omitUndefined : bool)
    (reqs : list (Z * operation * request)) :
  let st := serve rt omitUndefined reqs empty_mem in
  (∀ i j d d', spaces st !! i = Some d → spaces st !! j = Some d' →
               d !! "SpCode" = d' !! "SpCode" → i = j) ∧
  (∀ i j d d', projects st !! i = Some d → projects st !! j = Some d' →
               d !! "projectCode" = d' !! "projectCode" → i = j) ∧
  (∀ i j d d', tasks st !! i = Some d → tasks st !! j = Some d' →
               d !! "taskId" = d' !! "taskId" → i = j) ∧
  (∀ m i j d d', coll m st !! i = Some d → coll m st !! j = Some d' →
                 d !! "_id" = d' !! "_id" → i = j).
Proof.
  intros st. assert (wf st) as Hwf by (apply serve_wf, wf_empty).
  split_and!.
  - destruct (Hwf Space) as (_ & _ & H). apply Forall_cons in H as [H _].
    intros i j d d'. by apply distinct_at_lookup.
  - destruct (Hwf Project) as (_ & _ & H). apply Forall_cons in H as [H _].
    intros i j d d'. by apply distinct_at_lookup.
  - destruct (Hwf Task) as (_ & _ & H). apply Forall_cons in H as [H _].
    intros i j d d'. by apply distinct_at_lookup.
  - intros m i j d d'. destruct (Hwf m) as (_ & H & _). by apply distinct_at_lookup.
Qed.

(** *** 9.3 Create, then get or list *)

Section RoundTrips.
Variable rt : runtime.
Variable omitUndefined : bool.

Let store : Store mem := MemStore rt omitUndefined.
#[local] Existing Instance store.

Ltac construct_steps :=
  repeat (cbn -[validate duplicate];
          match goal with
          | H : is_undefined ?v = false |- context [is_undefined ?v] => rewrite H
          | H : castString rt ?v = Some _ |- context [castString rt ?v] => rewrite H
          | H : castDate rt ?v = Some _ |- context [castDate rt ?v] => rewrite H
          | H : cast_array rt ?t ?v = Some _ |- context [cast_array rt ?t ?v] => rewrite H
          end);
  cbn -[validate duplicate].

Lemma members_valid (d : doc) : valid_path d ("members", ArrayOf (plain String_)) = true.
Proof.
  unfold valid_path. simpl. destruct (d !! "members") as [[| | | | |l|]|]; try done.
  by induction l.
Qed.

Lemma createProject_accepted (req : request) (st : mem) (mb : bson) :
  all_truthy req project_required →
  Forall (λ k, casts_to_text rt (field req k)) project_strings →
  cast_array rt String_ (field req "members") = Some mb →
  (∀ s, castString rt (field req "projectCode") = Some (BStr s) →
        unused "projectCode" s (projects st)) →
  ∃ d : doc,
    createProject req st =
      (res_status 201 (DocBody d),
       set_coll Project (projects st ++ [d]) (S (next_id st)) st) ∧
    Forall (λ k, d !! k = castString rt (field req k)) project_strings ∧
    d !! "members" = Some mb ∧
    d !! "comments" = Some (BArr []).
Proof.
  intros Ht Hs Hm Hfresh.
  rewrite createProject_calls_store by done.
  unfold project_strings, casts_to_text in Hs. unfold all_truthy, project_required in Ht.
  split_Forall.
  repeat match goal with
         | H : truthy (field req _) = true |- _ => apply truthy_defined in H
         | H : ∃ s, castString rt _ = Some (BStr s) ∧ s ≠ "" |- _ =>
             let s := fresh "s" in let C := fresh "C" in let N := fresh "N" in
             destruct H as (s & C & N); apply String.eqb_neq in N
         end.
  match goal with
  | C : castString rt (field req "projectCode") = Some _ |- _ => specialize (Hfresh _ C)
  end.
  unfold pick, project_required. cbn [map].
  change (Model_save Project) with (mem_save rt Project).
  unfold mem_save. construct_steps.
  match goal with
  | |- context [validate ?sch ?d] => assert (validate sch d = true) as ->
  end.
  { apply forallb_forall. intros kp Hin. simpl in Hin.
    repeat (destruct Hin as [<-|Hin]; [try apply members_valid|]); [..|done].
    all: unfold valid_path, valid_leaf; cbn; eval_lookups; cbn.
    all: repeat match goal with
                | N : String.eqb ?s "" = false |- context [String.eqb ?s ""] => rewrite N
                end.
    all: reflexivity. }
  unfold duplicate. cbn.
  match type of Hfresh with
  | unused _ ?s _ => rewrite (unused_same_at _ s) by (done || by eval_lookups)
  end. cbn.
  eexists. split; [reflexivity|].
  split; [|split; by eval_lookups].
  repeat (apply Forall_cons_2; [|]); [..|apply Forall_nil_2];
    match goal with
    | C : castString rt (field req ?k) = Some _ |- _ !! ?k = castString rt (field req ?k) =>
        rewrite C; by eval_lookups
    end.
Qed.


Lemma getProject_eq (req : request) (st : mem) :
  getProject req st =
    match List.find (matches (project_query req)) (projects st) with
    | Some d => (res_status 200 (DocBody d), st)
    | None => (res_status 404 (ErrorBody "Project not found" None), st)
    end.
Proof.
  unfold getProject, try_catch, bind, await, ret. simpl. unfold mem_findOne. simpl.
  by destruct (List.find _ _).
Qed.

Lemma getTask_eq (req : request) (st : mem) :
  getTask req st =
    match List.find (matches (task_query req)) (tasks st) with
    | Some d => (res_status 200 (DocBody d), st)
    | None => (res_status 404 (ErrorBody "Task not found" None), st)
    end.
Proof.
  unfold getTask, try_catch, bind, await, ret. simpl. unfold mem_findOne. simpl.
  by destruct (List.find _ _).
Qed.

Lemma getSpace_eq (req : request) (st : mem) :
  getSpace req st =
    match List.find (matches [("SpCode", param req "SpCode")]) (spaces st) with
    | Some d => (res_status 200 (DocBody d), st)
    | None => (res_status 404 (ErrorBody "Space not found" None), st)
    end.
Proof.
  unfold getSpace, try_catch, bind, await, ret. simpl. unfold mem_findOne. simpl.
  by destruct (List.find _ _).
Qed.

Lemma listProjects_eq (req : request) (st : mem) :
  listProjects req st =
    (res_status 200
       (DocsBody (List.filter (matches [("SpCode", param req "SpCode")]) (projects st))), st).
Proof. reflexivity. Qed.

Lemma listTasks_eq (req : request) (st : mem) :
  listTasks req st =
    (res_status 200
       (DocsBody (List.filter (matches [("SpCode", param req "SpCode")]) (tasks st))), st).
Proof. reflexivity. Qed.

(** No document that lacks the string [s] at [k2] matches a filter on two
    paths that asks for it. *)
Lemma unused_no_match (k1 s1 k2 s2 : string) (l : list doc) :
  unused k2 s2 l → Forall (λ d, matches [(k1, s1); (k2, s2)] d = false) l.
Proof.
  intros H. eapply Forall_impl; [exact H|]. intros d Hd. simpl in Hd.
  rewrite matches_two. apply andb_false_iff. right. by apply has_str_false.
Qed.

Lemma filter_snoc (P : doc → bool) (l : list doc) (d : doc) :
  List.filter P (l ++ [d]) = (List.filter P l ++ if P d then [d] else [])%list.
Proof. rewrite List.filter_app. simpl. by destruct (P d). Qed.

(** X3.  Create-then-get for projects.  A create-project request whose
    fields are truthy and accepted by the schema, with a project code no
    stored project has, answers 201 with the created project; a get with the
    workspace code and the project code of the body then answers 200 with
    the same document, the listing of that workspace is the old listing with
    the new project at the end, and the listing of any other workspace is as
    before. *)
Theorem project_create_then_get (req : request) (st : mem) (sp pc : string) (mb : bson) :
  all_truthy req project_required →
  Forall (λ k, casts_to_text rt (field req k)) project_strings →
  castString rt (field req "SpCode") = Some (BStr sp) →
  castString rt (field req "projectCode") = Some (BStr pc) →
  cast_array rt String_ (field req "members") = Some mb →
  unused "projectCode" pc (projects st) →
  ∃ d st',
    createProject req st = (res_status 201 (DocBody d), st') ∧
    (∀ get, param get "SpCode" = sp → param get "projectCode" = pc →
            getProject get st' = (res_status 200 (DocBody d), st')) ∧
    (∀ get, param get "SpCode" = sp →
            listProjects get st' =
              (res_status 200
                 (DocsBody (List.filter (matches [("SpCode", sp)]) (projects st) ++ [d])),
               st')) ∧
    (∀ get, param get "SpCode" ≠ sp →
            (listProjects get st').1 = (listProjects get st).1).
Proof.
  intros Ht Hs Hsp Hpc Hm Hfresh.
  destruct (createProject_accepted req st mb Ht Hs Hm) as (d & Hc & Hd & _).
  { intros s Hs'. by simplify_eq. }
  unfold project_strings in Hd. apply Forall_cons in Hd as [Hd1 Hd].
  apply Forall_cons in Hd as [Hd2 _]. rewrite Hsp in Hd1. rewrite Hpc in Hd2.
  eexists d, _. split; [exact Hc|]. split_and!.
  - intros get Hg1 Hg2. rewrite getProject_eq. unfold project_query.
    rewrite Hg1, Hg2. simpl.
    rewrite (find_app_new _ _ d); [done|by apply unused_no_match|].
    rewrite matches_two. apply andb_true_iff. split; by apply has_str_true.
  - intros get Hg. rewrite listProjects_eq, Hg. simpl. rewrite filter_snoc.
    rewrite matches_one. by rewrite (proj2 (has_str_true d "SpCode" sp) Hd1).
  - intros get Hg. rewrite !listProjects_eq. simpl. rewrite filter_snoc.
    rewrite matches_one.
    rewrite (proj2 (has_str_false d "SpCode" (param get "SpCode"))) by congruence.
    by rewrite app_nil_r.
Qed.

(** X4.  Create-then-get for tasks.  A create-task request whose fields
    are truthy and accepted by the schema, with a task id no stored task has,
    answers 201 with the created task; a get with the workspace code and the
    task id of the body then answers 200 with the same document, and the
    listing of that workspace is the old listing with the new task at the
    end. *)
Theorem task_create_then_get (req : request) (st : mem) (sp tid : string) (ms : Z) :
  all_truthy req task_required →
  Forall (λ k, casts_to_text rt (field req k)) task_strings →
  castString rt (field req "SpCode") = Some (BStr sp) →
  castString rt (field req "taskId") = Some (BStr tid) →
  castDate rt (field req "deadline") = Some (BDate ms) →
  unused "taskId" tid (tasks st) →
  ∃ d st',
    createTask req st = (res_status 201 (DocBody d), st') ∧
    (∀ get, param get "SpCode" = sp → param get "taskId" = tid →
            getTask get st' = (res_status 200 (DocBody d), st')) ∧
    (∀ get, param get "SpCode" = sp →
            listTasks get st' =
              (res_status 200
                 (DocsBody (List.filter (matches [("SpCode", sp)]) (tasks st) ++ [d])),
               st')).
Proof.
  intros Ht Hs Hsp Htid Hdl Hfresh.
  destruct (createTask_accepted rt omitUndefined req st ms Ht Hs Hdl) as (d & Hc & Hd & _).
  { intros s Hs'. by simplify_eq. }
  unfold task_strings in Hd. apply Forall_cons in Hd as [Hd1 Hd].
  apply Forall_cons in Hd as [_ Hd]. apply Forall_cons in Hd as [Hd3 _].
  rewrite Hsp in Hd1. rewrite Htid in Hd3.
  eexists d, _. split; [exact Hc|]. split.
  - intros get Hg1 Hg2. rewrite getTask_eq. unfold task_query.
    rewrite Hg1, Hg2. simpl.
    rewrite (find_app_new _ _ d); [done|by apply unused_no_match|].
    rewrite matches_two. apply andb_true_iff. split; by apply has_str_true.
  - intros get Hg. rewrite listTasks_eq, Hg. simpl. rewrite filter_snoc.
    rewrite matches_one. by rewrite (proj2 (has_str_true d "SpCode" sp) Hd1).
Qed.

(** X5.  A get whose path codes no stored document has together answers
    404 and leaves the store as it was: a project or a task is found only
    under its own workspace code. *)
Theorem get_missing_is_404 (req : request) (st : mem) :
  (unused "SpCode" (param req "SpCode") (spaces st) →
   getSpace req st = (res_status 404 (ErrorBody "Space not found" None), st)) ∧
  (Forall (λ d : doc, ¬ (d !! "SpCode" = Some (BStr (param req "SpCode")) ∧
                        d !! "projectCode" = Some (BStr (param req "projectCode"))))
     (projects st) →
   getProject req st = (res_status 404 (ErrorBody "Project not found" None), st)) ∧
  (Forall (λ d : doc, ¬ (d !! "SpCode" = Some (BStr (param req "SpCode")) ∧
                        d !! "taskId" = Some (BStr (param req "taskId"))))
     (tasks st) →
   getTask req st = (res_status 404 (ErrorBody "Task not found" None), st)).
Proof.
  assert (∀ k1 s1 k2 s2 (l : list doc),
            Forall (λ d : doc, ¬ (d !! k1 = Some (BStr s1) ∧ d !! k2 = Some (BStr s2))) l →
            List.find (matches [(k1, s1); (k2, s2)]) l = None) as Hnone.
  { intros k1 s1 k2 s2 l H. apply find_none_Forall.
    eapply Forall_impl; [exact H|]. intros d Hd. simpl in Hd.
    rewrite matches_two. apply andb_false_iff.
    destruct (has_str d k1 s1) eqn:E1; [|by left].
    destruct (has_str d k2 s2) eqn:E2; [|by right].
    apply has_str_true in E1, E2. by destruct Hd. }
  split_and!.
  - intros H. rewrite getSpace_eq. rewrite find_none_Forall; [done|].
    eapply Forall_impl; [exact H|]. intros d Hd. simpl in Hd.
    rewrite matches_one. by apply has_str_false.
  - intros H. rewrite getProject_eq. unfold project_query. by rewrite Hnone.
  - intros H. rewrite getTask_eq. unfold task_query. by rewrite Hnone.
Qed.

End RoundTrips.

(** *** 9.4 Duplicate codes *)

Section Duplicates.
Variable rt : runtime.
Variable omitUndefined : bool.

Let store : Store mem := MemStore rt omitUndefined.
#[local] Existing Instance store.

(** A constructed document holds, at each leaf path that is given a value,
    the cast of that value. *)
Lemma construct_leaf (sch : schema) (o : obj) (d d' : doc) (id n : nat)
    (k : string) (t : schematype) :
  construct rt sch o d id = Some (d', n) →
  NoDup sch.*1 →
  assoc sch k = Some (Leaf t) →
  is_undefined (prop o k) = false →
  d' !! k = cast_leaf rt (type t) (prop o k).
Proof.
  revert d id. induction sch as [|[k0 p] sch IH]; simpl; intros d id H Hnd Ha Hu; [done|].
  apply NoDup_cons in Hnd as [Hk0 Hnd].
  destruct (String.eqb_spec k k0) as [->|Hne].
  - injection Ha as ->. rewrite Hu in H. simpl in H.
    destruct (cast_leaf rt (type t) (prop o k0)) as [b|]; simpl in H; [|done].
    apply construct_spec in H as [_ Hk]. rewrite Hk by done. apply lookup_insert_eq.
  - destruct (is_undefined (prop o k0)); [by eapply IH|].
    destruct (cast_path rt p id (prop o k0)) as [[b id']|]; simpl in H; [|done].
    by eapply IH.
Qed.

Lemma schema_NoDup (m : model) : NoDup (schema_of m).*1.
Proof.
  destruct m; simpl;
    repeat (apply NoDup_cons_2;
            [intros H; repeat (apply elem_of_cons in H as [H|H]; [discriminate|]);
             by apply elem_of_nil in H|]);
    apply NoDup_nil_2.
Qed.

(** A save whose value for a unique path casts to a string some stored
    document has throws, and leaves the store as it was. *)
Lemma save_duplicate_throws (m : model) (o : obj) (st : mem) (k c : string) :
  k ∈ unique_paths (schema_of m) →
  is_undefined (prop o k) = false →
  castString rt (prop o k) = Some (BStr c) →
  used k c (coll m st) →
  ∃ e, mem_save rt m o st = (Throw e, st).
Proof.
  intros Hk Hu Hc Hused.
  destruct (mem_save rt m o st) as [[d|e] st'] eqn:E.
  - exfalso. pose proof E as E'. apply mem_save_ok in E' as (_ & _ & _ & _ & Hfresh).
    apply (Hfresh k Hk).
    assert (d !! k = Some (BStr c)) as ->.
    { unfold mem_save in E.
      destruct (construct _ _ _ _ _) as [[d0 n]|] eqn:C; [|done].
      destruct (negb _); [done|]. destruct (duplicate _ _ _); [done|].
      injection E as <- <-.
      destruct (unique_path_spec m k Hk) as (Hin & Hne & _).
      rewrite lookup_insert_ne by done.
      rewrite (construct_leaf _ _ _ _ _ _ k (reqd_unique String_) C);
        [exact Hc|apply schema_NoDup| |done].
      destruct m; simpl in Hk; apply list_elem_of_singleton in Hk as ->; reflexivity. }
    unfold used in Hused. apply Exists_exists in Hused as (d' & Hin & Hd').
    unfold key_view. apply list_elem_of_fmap. by exists d'.
  - exists e. f_equal. by eapply mem_save_throw.
Qed.

(** X6.  Project codes and task ids are unique across workspaces: creating
    a project whose code some stored project has, in whatever workspace, is
    answered 400, creating a task whose id some stored task has is answered
    400 or 500, and neither stores anything. *)
Theorem duplicate_code_is_refused (req : request) (st : mem) (c : string) :
  (castString rt (field req "projectCode") = Some (BStr c) →
   used "projectCode" c (projects st) →
   ∃ p, createProject req st = (res_status 400 p, st)) ∧
  (castString rt (field req "taskId") = Some (BStr c) →
   used "taskId" c (tasks st) →
   ∃ r, createTask req st = (r, st) ∧ (status r = 400 ∨ status r = 500)).
Proof.
  split; intros Hc Hused.
  - destruct (decide (all_truthy req project_required)) as [H|H]; cycle 1.
    { eexists. apply createProject_missing. by apply not_all_truthy. }
    rewrite createProject_calls_store by done.
    destruct (save_duplicate_throws Project (pick req project_required) st "projectCode" c)
      as [e He]; try done.
    + simpl. apply list_elem_of_singleton. reflexivity.
    + apply truthy_defined. unfold all_truthy, project_required in H. by split_Forall.
    + change (Model_save Project) with (mem_save rt Project). rewrite He. by eexists.
  - destruct (decide (all_truthy req task_required)) as [H|H]; cycle 1.
    { eexists. split; [apply createTask_missing; by apply not_all_truthy|by left]. }
    rewrite createTask_calls_store by done.
    destruct (save_duplicate_throws Task (pick req task_required) st "taskId" c)
      as [e He]; try done.
    + simpl. apply list_elem_of_singleton. reflexivity.
    + apply truthy_defined. unfold all_truthy, task_required in H. by split_Forall.
    + change (Model_save Task) with (mem_save rt Task). rewrite He.
      eexists. split; [reflexivity|by right].
Qed.

End Duplicates.

(** *** 9.5 Comments *)

Section Comments.
Variable rt : runtime.
Variable omitUndefined : bool.

Let store : Store mem := MemStore rt omitUndefined.
#[local] Existing Instance store.

(** The cast of the comment a handler pushes: the text, the time of the
    request, and a fresh id. *)
Lemma cast_project_comment (req : request) (id : nat) (b : bson) :
  truthy (field req "comment") = true →
  castString rt (field req "comment") = Some b →
  valid_time (Date_now rt) = true →
  cast_update rt omitUndefined projectSchema
    (UPush "comments" (pick req ["comment"] ++ [("date", VNum (Date_now rt))])) id
  = Some (CPush "comments" (project_comment b (Date_now rt) id), S id).
Proof.
  intros Ht Hc Hv. apply truthy_defined in Ht.
  unfold cast_update, pick. cbn. rewrite Ht. cbn. rewrite Hc, Hv. reflexivity.
Qed.

Lemma cast_task_comment (req : request) (id : nat) (ba bt : bson) :
  all_truthy req ["author"; "text"] →
  castString rt (field req "author") = Some ba →
  castString rt (field req "text") = Some bt →
  valid_time (Date_now rt) = true →
  cast_update rt omitUndefined taskSchema
    (UPush "comments" (pick req ["author"; "text"] ++ [("timestamp", VNum (Date_now rt))])) id
  = Some (CPush "comments" (task_comment ba bt (Date_now rt) id), S id).
Proof.
  intros Ht Ha Hb Hv. unfold all_truthy in Ht. split_Forall.
  repeat match goal with
         | H : truthy (field req _) = true |- _ => apply truthy_defined in H
         end.
  unfold cast_update, pick. cbn.
  repeat match goal with
         | H : is_undefined ?v = false |- context [is_undefined ?v] => rewrite H; cbn
         end.
  rewrite Ha, Hb, Hv. reflexivity.
Qed.

Lemma addProjectComment_ok (req : request) (st : mem) (p : doc) (b : bson)
    (cs : list bson) :
  truthy (field req "comment") = true →
  castString rt (field req "comment") = Some b →
  valid_time (Date_now rt) = true →
  List.find (matches (project_query req)) (projects st) = Some p →
  p !! "comments" = Some (BArr cs) →
  let p' : doc :=
    <["comments" := BArr (cs ++ [project_comment b (Date_now rt) (next_id st)])]> p in
  addProjectComment rt req st =
    (res_status 200 (DocBody p'),
     set_coll Project (replace_first (matches (project_query req)) p' (projects st))
       (S (next_id st)) st).
Proof.
  intros Ht Hc Hv Hf Hcs p'.
  rewrite addProjectComment_calls_store by done.
  change (Model_findOneAndUpdate Project) with (mem_findOneAndUpdate rt omitUndefined Project).
  unfold mem_findOneAndUpdate. cbn [schema_of coll].
  rewrite (cast_project_comment req _ b Ht Hc Hv), Hf. simpl. by rewrite Hcs.
Qed.

(** X7.  A comment on a stored project: with a truthy comment that casts,
    the handler answers 200 with the project, whose comments are the old ones
    followed by the new comment (its text, the time of the request as its
    date, a fresh id); every other path of the project is as before, and the
    project is stored in place of the old one. *)
Theorem project_comment_is_appended (req : request) (st : mem) (p : doc) (b : bson)
    (cs : list bson) :
  truthy (field req "comment") = true →
  castString rt (field req "comment") = Some b →
  valid_time (Date_now rt) = true →
  List.find (matches (project_query req)) (projects st) = Some p →
  p !! "comments" = Some (BArr cs) →
  let p' : doc :=
    <["comments" := BArr (cs ++ [project_comment b (Date_now rt) (next_id st)])]> p in
  addProjectComment rt req st =
    (res_status 200 (DocBody p'),
     set_coll Project (replace_first (matches (project_query req)) p' (projects st))
       (S (next_id st)) st) ∧
  ∀ k, k ≠ "comments" → p' !! k = p !! k.
Proof.
  intros Ht Hc Hv Hf Hcs p'. split; [by apply addProjectComment_ok|].
  intros k Hk. by apply lookup_insert_ne.
Qed.



Lemma same_key_eq (a b : bson) : same_key a b = true → a = b.
Proof.
  destruct a, b; simpl; try discriminate; intros H; f_equal;
    first [by apply Z.eqb_eq | by apply String.eqb_eq | by apply Nat.eqb_eq].
Qed.

Lemma same_at_eq (k : string) (d d' : doc) : same_at k d d' = true → d !! k = d' !! k.
Proof.
  unfold same_at. destruct (d !! k), (d' !! k); try discriminate.
  intros H. f_equal. by apply same_key_eq.
Qed.

Lemma same_at_id_refl (d : doc) (i : nat) :
  d !! "_id" = Some (BId i) → same_at "_id" d d = true.
Proof. intros H. unfold same_at. rewrite H. simpl. apply Nat.eqb_refl. Qed.

(** With distinct ids, the document a filter finds first is also the first
    that has its id: saving a loaded document writes to the document that
    was loaded. *)
Lemma replace_loaded (P : doc → bool) (l : list doc) (t d : doc) (n : nat) :
  ids_below n l → distinct_at "_id" l →
  List.find P l = Some t →
  List.find (same_at "_id" t) l = Some t ∧
  replace_first (same_at "_id" t) d l = replace_first P d l.
Proof.
  unfold ids_below, distinct_at, key_view.
  induction l as [|x l IH]; simpl; intros Hids Hnd Hf; [done|].
  apply Forall_cons in Hids as [(i & Hi & _) Hids]. apply NoDup_cons in Hnd as [Hx Hnd].
  destruct (P x) eqn:Px.
  - injection Hf as <-. by rewrite (same_at_id_refl x i).
  - destruct (same_at "_id" t x) eqn:E.
    + exfalso. apply Hx. apply same_at_eq in E. rewrite <- E.
      apply list_elem_of_fmap_2. apply list_elem_of_In.
      by apply List.find_some in Hf as [Hin _].
    + destruct (IH Hids Hnd Hf) as [H1 H2]. by rewrite H1, H2.
Qed.

(** Pushing a comment keeps a valid task valid: the comments of a task
    have no required path. *)
Lemma validate_task_push (t : doc) (cs : list bson) (c : bson) :
  validate taskSchema t = true →
  t !! "comments" = Some (BArr cs) →
  validate taskSchema (<["comments" := BArr (cs ++ [c])]> t) = true.
Proof.
  intros Hv Hcs. apply forallb_forall. intros [k p] Hin.
  pose proof (validate_In _ _ _ _ Hv Hin) as Hp.
  simpl in Hin.
  repeat (destruct Hin as [Hin|Hin];
          [injection Hin as <- <-; unfold valid_path in *; simpl in *;
           by rewrite lookup_insert_ne|]).
  destruct Hin as [Hin|[]]. injection Hin as <- <-.
  unfold valid_path. simpl. rewrite lookup_insert_eq.
  apply forallb_forall. intros b _. by destruct b.
Qed.

Lemma addTaskComment_ok (req : request) (st : mem) (t : doc) (ba bt : bson)
    (cs : list bson) :
  wf st →
  all_truthy req ["author"; "text"] →
  castString rt (field req "author") = Some ba →
  castString rt (field req "text") = Some bt →
  valid_time (Date_now rt) = true →
  List.find (matches (task_query req)) (tasks st) = Some t →
  t !! "comments" = Some (BArr cs) →
  validate taskSchema t = true →
  let t' : doc :=
    bump (<["comments" := BArr (cs ++ [task_comment ba bt (Date_now rt) (next_id st)])]> t) in
  addTaskComment rt req st =
    (res_status 200 (DocBody t'),
     set_coll Task (replace_first (matches (task_query req)) t' (tasks st))
       (S (next_id st)) st).
Proof.
  intros Hwf Ht Ha Hb Hv Hf Hcs Hval t'. subst t'.
  destruct (Hwf Task) as (Hids & Hnd & _). simpl in Hids, Hnd.
  destruct (replace_loaded (matches (task_query req)) (tasks st) t
              (bump (<["comments" :=
                       BArr (cs ++ [task_comment ba bt (Date_now rt) (next_id st)])]> t))
              _ Hids Hnd Hf) as [Hl Hr].
  rewrite addTaskComment_calls_store by done.
  change (Model_findOne Task) with (mem_findOne Task). unfold mem_findOne.
  cbn [coll]. rewrite Hf.
  change (Document_push_save Task) with (mem_push_save rt omitUndefined Task).
  unfold mem_push_save. cbn [schema_of coll].
  rewrite (cast_task_comment req _ ba bt Ht Ha Hb Hv).
  cbn [apply_change]. rewrite Hcs.
  rewrite (validate_task_push t cs _ Hval Hcs). cbn [negb].
  rewrite Hl, Hcs. by rewrite Hr.
Qed.


(** X10.  The comment handlers write nothing but comments: for every
    request, after a project comment every stored project holds what it held
    at each path other than [comments], after a task comment every stored
    task holds what it held at each path other than [comments] and the
    version key, and neither touches another collection. *)
Theorem comment_writes_only_comments (req : request) (st : mem) :
  (∀ k, k ≠ "comments" →
        key_view k (projects (addProjectComment rt req st).2) = key_view k (projects st)) ∧
  spaces (addProjectComment rt req st).2 = spaces st ∧
  tasks (addProjectComment rt req st).2 = tasks st ∧
  (∀ k, k ≠ "comments" → k ≠ "__v" →
        key_view k (tasks (addTaskComment rt req st).2) = key_view k (tasks st)) ∧
  spaces (addTaskComment rt req st).2 = spaces st ∧
  projects (addTaskComment rt req st).2 = projects st.
Proof.
  assert (∀ st', (addProjectComment rt req st).2 = st' →
            st' = st ∨
            st' = (mem_findOneAndUpdate rt omitUndefined Project (project_query req)
                     (UPush "comments"
                        (pick req ["comment"] ++ [("date", VNum (Date_now rt))])) st).2)
    as Hp.
  { intros st' <-. destruct (truthy (field req "comment")) eqn:E.
    - right. rewrite addProjectComment_calls_store by done.
      change (Model_findOneAndUpdate Project)
        with (mem_findOneAndUpdate rt omitUndefined Project).
      by destruct (mem_findOneAndUpdate _ _ _ _ _ _) as [[[d|]|e] st'].
    - left. by rewrite addProjectComment_missing. }
  assert (∀ st', (addTaskComment rt req st).2 = st' →
            st' = st ∨
            ∃ t, st' = (mem_push_save rt omitUndefined Task t "comments"
                          (pick req ["author"; "text"]
                           ++ [("timestamp", VNum (Date_now rt))]) st).2)
    as Ht.
  { intros st' <-. destruct (decide (all_truthy req ["author"; "text"])) as [H|H].
    - rewrite addTaskComment_calls_store by done.
      change (Model_findOne Task) with (mem_findOne Task). unfold mem_findOne.
      destruct (List.find _ _) as [t|]; [|by left]. right. exists t.
      change (Document_push_save Task) with (mem_push_save rt omitUndefined Task).
      by destruct (mem_push_save _ _ _ _ _ _ _) as [[d|e] st'].
    - left. rewrite addTaskComment_missing; [done|by apply not_all_truthy]. }
  assert (∀ q u, touched u = ["comments"] →
            let r := mem_findOneAndUpdate rt omitUndefined Project q u st in
            (∀ k, k ≠ "comments" → key_view k (projects r.2) = key_view k (projects st)) ∧
            spaces r.2 = spaces st ∧ tasks r.2 = tasks st) as Hu.
  { intros q u Hu r. subst r.
    destruct (mem_findOneAndUpdate_cases rt omitUndefined Project q u st)
      as [[Hst _]|(d & d' & _ & F & Hk & Hc & _ & Ho)]; [by rewrite Hst|].
    split_and!.
    - intros k Hne. simpl in Hc, F. rewrite Hc. apply key_view_replace_first.
      intros d1 Hd1. simplify_eq. apply Hk. rewrite Hu. set_solver.
    - by apply (Ho Space).
    - by apply (Ho Task). }
  assert (∀ t o,
            let r := mem_push_save rt omitUndefined Task t "comments" o st in
            (∀ k, k ≠ "comments" → k ≠ "__v" →
                  key_view k (tasks r.2) = key_view k (tasks st)) ∧
            spaces r.2 = spaces st ∧ projects r.2 = projects st) as Hs.
  { intros t o r. subst r.
    destruct (mem_push_save_cases rt omitUndefined Task t "comments" o st)
      as [[Hst _]|(s & s' & d & _ & F & Hk & Hc & _ & Ho)]; [by rewrite Hst|].
    split_and!.
    - intros k Hne Hne'. simpl in Hc, F. rewrite Hc. apply key_view_replace_first.
      intros d1 Hd1. simplify_eq. by apply Hk.
    - by apply (Ho Space).
    - by apply (Ho Project). }
  destruct (Hp _ eq_refl) as [->| ->]; destruct (Ht _ eq_refl) as [->|[t ->]];
    split_and!; try done; try (by apply Hu); by apply Hs.
Qed.

End Comments.

(** *** 9.6 Updates *)

Section UpdatesMore.
Variable rt : runtime.
Variable omitUndefined : bool.

Let store : Store mem := MemStore rt omitUndefined.
#[local] Existing Instance store.

Lemma matches_frame (q : query) (d d' : doc) :
  (∀ k, k ∈ q.*1 → d' !! k = d !! k) → matches q d' = matches q d.
Proof.
  unfold matches. induction q as [|[k s] q IH]; simpl; [done|]. intros H.
  unfold has_str at 1 3. rewrite (H k) by set_solver.
  f_equal. apply IH. intros k' Hk'. apply H. set_solver.
Qed.

Lemma find_replace_first (P : doc → bool) (l : list doc) (d d' : doc) :
  List.find P l = Some d → P d' = true →
  List.find P (replace_first P d' l) = Some d'.
Proof.
  induction l as [|x l IH]; simpl; [done|]. intros Hf Hd'.
  destruct (P x) eqn:Px; simpl.
  - by rewrite Hd'.
  - rewrite Px. by apply IH.
Qed.

(** A [$set] of flat paths whose values all cast, on a collection where the
    filter finds [d], stores the updated document in place of [d] and
    returns it. *)
Lemma set_update_ok (m : model) (q : query) (o : obj) (st : mem) (d : doc) :
  flat_keys (schema_of m) o →
  Forall (λ kv : string * value,
            ∀ p, assoc (schema_of m) kv.1 = Some p → is_Some (cast_flat rt p kv.2)) o →
  List.find (matches q) (coll m st) = Some d →
  ∃ l, cast_set rt omitUndefined (schema_of m) o (next_id st) = Some (l, next_id st) ∧
       let d' := foldr (λ '(k, b) d, <[k:=b]> d) d l in
       mem_findOneAndUpdate rt omitUndefined m q (USet o) st =
         (Ok (Some d'),
          set_coll m (replace_first (matches q) d' (coll m st)) (next_id st) st).
Proof.
  intros Hflat Hcast Hf.
  destruct (cast_set_total rt omitUndefined (schema_of m) o (next_id st) Hflat Hcast)
    as [l El].
  exists l. split; [done|]. simpl.
  unfold mem_findOneAndUpdate, cast_update. rewrite El. simpl. by rewrite Hf.
Qed.

Lemma task_update_flat (req : request) :
  flat_keys taskSchema (pick req task_updatable).
Proof. repeat constructor; simpl; by intros p0 [= <-]. Qed.

Lemma project_update_flat (req : request) :
  flat_keys projectSchema (pick req project_updatable).
Proof. repeat constructor; simpl; by intros p0 [= <-]. Qed.

Lemma task_update_casts (req : request) :
  Forall (λ k, is_Some (cast_at rt Task k (field req k))) task_updatable →
  Forall (λ kv : string * value,
            ∀ p, assoc taskSchema kv.1 = Some p → is_Some (cast_flat rt p kv.2))
    (pick req task_updatable).
Proof.
  unfold task_updatable. intros H. split_Forall.
  repeat constructor; simpl; intros p0 [= <-];
    match goal with
    | H : is_Some (cast_at _ _ ?k _) |- is_Some (cast_flat _ _ (field req ?k)) => exact H
    end.
Qed.

Lemma project_update_casts (req : request) :
  Forall (λ k, is_Some (cast_at rt Project k (field req k))) project_updatable →
  Forall (λ kv : string * value,
            ∀ p, assoc projectSchema kv.1 = Some p → is_Some (cast_flat rt p kv.2))
    (pick req project_updatable).
Proof.
  unfold project_updatable. intros H. split_Forall.
  repeat constructor; simpl; intros p0 [= <-];
    match goal with
    | H : is_Some (cast_at _ _ ?k _) |- is_Some (cast_flat _ _ (field req ?k)) => exact H
    end.
Qed.



(** X12.  Update-then-get.  After a project update or a task update that
    succeeds (a truthy updatable field, values the schema can cast, a stored
    document under the path codes), a get with the same path answers 200 with
    the document the update returned, whether the store drops [undefined]
    keys or not: an update never moves a document out of its path. *)
Theorem update_then_get (req : request) (st : mem) :
  (∀ p, some_truthy req project_updatable →
        List.find (matches (project_query req)) (projects st) = Some p →
        Forall (λ k, is_Some (cast_at rt Project k (field req k))) project_updatable →
        ∃ p' st', updateProject req st = (res_status 200 (DocBody p'), st') ∧
                  getProject req st' = (res_status 200 (DocBody p'), st')) ∧
  (∀ t, some_truthy req task_updatable →
        List.find (matches (task_query req)) (tasks st) = Some t →
        Forall (λ k, is_Some (cast_at rt Task k (field req k))) task_updatable →
        ∃ t' st', updateTask req st = (res_status 200 (DocBody t'), st') ∧
                  getTask req st' = (res_status 200 (DocBody t'), st')).
Proof.
  split.
  - intros p Htruthy Hfind Hcast.
    destruct (set_update_ok Project (project_query req) (pick req project_updatable) st p
                (project_update_flat req) (project_update_casts req Hcast) Hfind)
      as (l & El & Hupd).
    cbn [schema_of coll] in El, Hupd. cbv zeta in Hupd. eexists _, _. split.
    + rewrite updateProject_calls_store by done.
      change (Model_findOneAndUpdate Project)
        with (mem_findOneAndUpdate rt omitUndefined Project).
      by rewrite Hupd.
    + etransitivity; [apply (getProject_eq rt omitUndefined)|]. cbn [projects set_coll].
      rewrite (find_replace_first _ _ p); [done|done|].
      rewrite (matches_frame _ p); [by apply List.find_some in Hfind as [_ ?]|].
      intros k Hk. apply lookup_set_other. apply cast_set_keys in El.
      intros Hin. apply El in Hin. simpl in Hk, Hin.
      repeat (apply elem_of_cons in Hk as [->|Hk];
              [repeat (apply elem_of_cons in Hin as [Hin|Hin]; [discriminate|]);
               by apply elem_of_nil in Hin|]).
      by apply elem_of_nil in Hk.
  - intros t Htruthy Hfind Hcast.
    destruct (set_update_ok Task (task_query req) (pick req task_updatable) st t
                (task_update_flat req) (task_update_casts req Hcast) Hfind)
      as (l & El & Hupd).
    cbn [schema_of coll] in El, Hupd. cbv zeta in Hupd. eexists _, _. split.
    + rewrite updateTask_calls_store by done.
      change (Model_findOneAndUpdate Task) with (mem_findOneAndUpdate rt omitUndefined Task).
      by rewrite Hupd.
    + etransitivity; [apply (getTask_eq rt omitUndefined)|]. cbn [tasks set_coll].
      rewrite (find_replace_first _ _ t); [done|done|].
      rewrite (matches_frame _ t); [by apply List.find_some in Hfind as [_ ?]|].
      intros k Hk. apply lookup_set_other. apply cast_set_keys in El.
      intros Hin. apply El in Hin. simpl in Hk, Hin.
      repeat (apply elem_of_cons in Hk as [->|Hk];
              [repeat (apply elem_of_cons in Hin as [Hin|Hin]; [discriminate|]);
               by apply elem_of_nil in Hin|]).
      by apply elem_of_nil in Hk.
Qed.

End UpdatesMore.

(** *** 9.7 Answers, and writes followed by reads *)

Section Answers.
Context {S : Type} `{!Store S}.
Variable rt : runtime.

(** X13.  On every store, whatever the store calls return or throw, a
    handler answers with one of the statuses 200, 201, 400, 404 and 500, and
    the body is an error object exactly when the status is 400 or more. *)
Theorem answers_are_well_shaped (op : operation) (req : request) (st : S) :
  let r := (handler rt op req st).1 in
  (status r = 200 ∨ status r = 201 ∨ status r = 400 ∨ status r = 404 ∨ status r = 500) ∧
  (is_error (json r) = true ↔ (400 ≤ status r)%nat).
Proof.
  assert (∀ r : response,
            (status r = 200 ∧ is_error (json r) = false) ∨
            (status r = 201 ∧ is_error (json r) = false) ∨
            (status r = 400 ∧ is_error (json r) = true) ∨
            (status r = 404 ∧ is_error (json r) = true) ∨
            (status r = 500 ∧ is_error (json r) = true) →
            (status r = 200 ∨ status r = 201 ∨ status r = 400 ∨ status r = 404 ∨
             status r = 500) ∧
            (is_error (json r) = true ↔ (400 ≤ status r)%nat)) as Hshape.
  { intros r [[-> ->]|[[-> ->]|[[-> ->]|[[-> ->]|[-> ->]]]]];
      (split; [tauto|split; intros; (done || lia)]). }
  cbv zeta. apply Hshape. destruct op; simpl.
  - unfold getSpace, try_catch, bind, await, ret.
    destruct (Model_findOne _ _ _) as [[d|]|e]; simpl; tauto.
  - destruct (decide (all_truthy req space_required)) as [H|H].
    + rewrite createSpace_calls_store by done.
      destruct (Model_save _ _ _) as [[d|e] st']; simpl; tauto.
    + rewrite createSpace_missing by (by apply not_all_truthy). simpl. tauto.
  - unfold listProjects, try_catch, bind, await, ret.
    destruct (Model_find _ _ _) as [l|e]; simpl; tauto.
  - unfold getProject, try_catch, bind, await, ret.
    destruct (Model_findOne _ _ _) as [[d|]|e]; simpl; tauto.
  - destruct (decide (all_truthy req project_required)) as [H|H].
    + rewrite createProject_calls_store by done.
      destruct (Model_save _ _ _) as [[d|e] st']; simpl; tauto.
    + rewrite createProject_missing by (by apply not_all_truthy). simpl. tauto.
  - destruct (decide (some_truthy req project_updatable)) as [H|H].
    + rewrite updateProject_calls_store by done.
      destruct (Model_findOneAndUpdate _ _ _ _) as [[[d|]|e] st']; simpl; tauto.
    + rewrite updateProject_rejects by (by apply not_some_truthy). simpl. tauto.
  - unfold listTasks, try_catch, bind, await, ret.
    destruct (Model_find _ _ _) as [l|e]; simpl; tauto.
  - unfold getTask, try_catch, bind, await, ret.
    destruct (Model_findOne _ _ _) as [[d|]|e]; simpl; tauto.
  - destruct (decide (all_truthy req task_required)) as [H|H].
    + rewrite createTask_calls_store by done.
      destruct (Model_save _ _ _) as [[d|e] st']; simpl; tauto.
    + rewrite createTask_missing by (by apply not_all_truthy). simpl. tauto.
  - destruct (decide (some_truthy req task_updatable)) as [H|H].
    + rewrite updateTask_calls_store by done.
      destruct (Model_findOneAndUpdate _ _ _ _) as [[[d|]|e] st']; simpl; tauto.
    + rewrite updateTask_rejects by (by apply not_some_truthy). simpl. tauto.
  - destruct (truthy (field req "comment")) eqn:H.
    + rewrite addProjectComment_calls_store by done.
      destruct (Model_findOneAndUpdate _ _ _ _) as [[[d|]|e] st']; simpl; tauto.
    + rewrite addProjectComment_missing by done. simpl. tauto.
  - destruct (decide (all_truthy req ["author"; "text"])) as [H|H].
    + rewrite addTaskComment_calls_store by done.
      destruct (Model_findOne _ _ _) as [[t|]|e]; simpl; try tauto.
      destruct (Document_push_save _ _ _ _ _) as [[d|e] st']; simpl; tauto.
    + rewrite addTaskComment_missing by (by apply not_all_truthy). simpl. tauto.
Qed.

End Answers.

Section Composition.
Variable rt : runtime.
Variable omitUndefined : bool.

Let store : Store mem := MemStore rt omitUndefined.
#[local] Existing Instance store.

(** X14.  Comment-then-get.  After a comment that is stored, a get with the
    same path answers 200 with the document the comment handler returned,
    whose last comment is the new one. *)
Theorem comment_then_get (req : request) (st : mem) :
  (∀ p b cs,
     truthy (field req "comment") = true →
     castString rt (field req "comment") = Some b →
     valid_time (Date_now rt) = true →
     List.find (matches (project_query req)) (projects st) = Some p →
     p !! "comments" = Some (BArr cs) →
     ∃ p' st',
       addProjectComment rt req st = (res_status 200 (DocBody p'), st') ∧
       getProject req st' = (res_status 200 (DocBody p'), st') ∧
       p' !! "comments" =
         Some (BArr (cs ++ [project_comment b (Date_now rt) (next_id st)]))) ∧
  (∀ t ba bt cs,
     wf st →
     all_truthy req ["author"; "text"] →
     castString rt (field req "author") = Some ba →
     castString rt (field req "text") = Some bt →
     valid_time (Date_now rt) = true →
     List.find (matches (task_query req)) (tasks st) = Some t →
     t !! "comments" = Some (BArr cs) →
     validate taskSchema t = true →
     ∃ t' st',
       addTaskComment rt req st = (res_status 200 (DocBody t'), st') ∧
       getTask req st' = (res_status 200 (DocBody t'), st') ∧
       t' !! "comments" =
         Some (BArr (cs ++ [task_comment ba bt (Date_now rt) (next_id st)]))).
Proof.
  split.
  - intros p b cs Ht Hc Hv Hf Hcs. eexists _, _. split_and!.
    + by apply (addProjectComment_ok rt omitUndefined req st p b cs).
    + etransitivity; [apply (getProject_eq rt omitUndefined)|]. cbn [projects set_coll].
      rewrite (find_replace_first _ _ p); [done|done|].
      rewrite (matches_frame _ p); [by apply List.find_some in Hf as [_ ?]|].
      intros k Hk. apply lookup_insert_ne. simpl in Hk.
      repeat (apply elem_of_cons in Hk as [->|Hk]; [done|]). by apply elem_of_nil in Hk.
    + apply lookup_insert_eq.
  - intros t ba bt cs Hwf Ht Ha Hb Hv Hf Hcs Hval. eexists _, _. split_and!.
    + by apply (addTaskComment_ok rt omitUndefined req st t ba bt cs).
    + etransitivity; [apply (getTask_eq rt omitUndefined)|]. cbn [tasks set_coll].
      rewrite (find_replace_first _ _ t); [done|done|].
      rewrite (matches_frame _ t); [by apply List.find_some in Hf as [_ ?]|].
      intros k Hk. simpl in Hk.
      rewrite bump_frame, lookup_insert_ne; [done| |];
        repeat (apply elem_of_cons in Hk as [->|Hk]; [done|]); by apply elem_of_nil in Hk.
    + rewrite bump_frame by done. apply lookup_insert_eq.
Qed.

(** X15.  An update for path codes no stored document has together, with
    a truthy updatable field and values the schema can cast, answers 404 and
    leaves the store as it was: an update never creates a document. *)
Theorem update_missing_is_404 (req : request) (st : mem) :
  (some_truthy req project_updatable →
   Forall (λ k, is_Some (cast_at rt Project k (field req k))) project_updatable →
   Forall (λ d : doc, ¬ (d !! "SpCode" = Some (BStr (param req "SpCode")) ∧
                        d !! "projectCode" = Some (BStr (param req "projectCode"))))
     (projects st) →
   updateProject req st = (res_status 404 (ErrorBody "Project not found" None), st)) ∧
  (some_truthy req task_updatable →
   Forall (λ k, is_Some (cast_at rt Task k (field req k))) task_updatable →
   Forall (λ d : doc, ¬ (d !! "SpCode" = Some (BStr (param req "SpCode")) ∧
                        d !! "taskId" = Some (BStr (param req "taskId"))))
     (tasks st) →
   updateTask req st = (res_status 404 (ErrorBody "Task not found" None), st)).
Proof.
  assert (∀ k1 s1 k2 s2 (l : list doc),
            Forall (λ d : doc, ¬ (d !! k1 = Some (BStr s1) ∧ d !! k2 = Some (BStr s2))) l →
            List.find (matches [(k1, s1); (k2, s2)]) l = None) as Hnone.
  { intros k1 s1 k2 s2 l H. apply find_none_Forall.
    eapply Forall_impl; [exact H|]. intros d Hd. simpl in Hd.
    rewrite matches_two. apply andb_false_iff.
    destruct (has_str d k1 s1) eqn:E1; [|by left].
    destruct (has_str d k2 s2) eqn:E2; [|by right].
    apply has_str_true in E1, E2. by destruct Hd. }
  split; intros Ht Hcast Hmiss.
  - destruct (cast_set_total rt omitUndefined projectSchema (pick req project_updatable)
                (next_id st) (project_update_flat req)
                (project_update_casts rt req Hcast)) as [l El].
    rewrite updateProject_calls_store by done.
    change (Model_findOneAndUpdate Project)
      with (mem_findOneAndUpdate rt omitUndefined Project).
    unfold mem_findOneAndUpdate, cast_update. cbn [schema_of coll]. rewrite El. simpl.
    unfold project_query. by rewrite Hnone.
  - destruct (cast_set_total rt omitUndefined taskSchema (pick req task_updatable)
                (next_id st) (task_update_flat req)
                (task_update_casts rt req Hcast)) as [l El].
    rewrite updateTask_calls_store by done.
    change (Model_findOneAndUpdate Task) with (mem_findOneAndUpdate rt omitUndefined Task).
    unfold mem_findOneAndUpdate, cast_update. cbn [schema_of coll]. rewrite El. simpl.
    unfold task_query. by rewrite Hnone.
Qed.

End Composition.

(** *** 9.8 What is stored stays stored *)

Section GrowthStep.
Variable rt : runtime.
Variable omitUndefined : bool.

(** A successful write appends to the protected columns or leaves them as
    they were. *)
Lemma mutation_views (st st' : mem) :
  mutation rt omitUndefined st st' →
  (next_id st ≤ next_id st')%nat ∧
  ∀ m k, k ∈ protected m →
         ∃ new, key_view k (coll m st') = (key_view k (coll m st) ++ new)%list.
Proof.
  intros [(m & o & d & H)|[(m & q & u & d & Hp & H)|(m & t & o & d & H)]].
  - apply mem_save_ok in H as (_ & Hn & Hc & Ho & _). split; [lia|].
    intros m0 k _. destruct (decide (m0 = m)) as [->|Hne].
    + exists [d !! k]. rewrite Hc. unfold key_view. by rewrite fmap_app.
    + exists []. rewrite (Ho m0) by done. by rewrite app_nil_r.
  - destruct (mem_findOneAndUpdate_cases rt omitUndefined m q u st)
      as [[_ Hno]|(d0 & d' & _ & F & Hk & Hc & Hn & Ho)];
      rewrite H in *; simpl in *; [by destruct (Hno d)|].
    split; [done|]. intros m0 k Hin. exists []. rewrite app_nil_r.
    destruct (decide (m0 = m)) as [->|Hne]; [|by rewrite Ho].
    rewrite Hc. apply key_view_replace_first. intros d1 Hd1. simplify_eq.
    apply Hk. intros Hin'. by eapply Forall_forall in Hp.
  - destruct (mem_push_save_cases rt omitUndefined m t "comments" o st)
      as [[_ Hno]|(s & s' & d' & _ & F & Hk & Hc & Hn & Ho)];
      rewrite H in *; simpl in *; [by destruct (Hno d)|].
    split; [done|]. intros m0 k Hin. exists []. rewrite app_nil_r.
    destruct (decide (m0 = m)) as [->|Hne]; [|by rewrite Ho].
    rewrite Hc. apply key_view_replace_first. intros d1 Hd1. simplify_eq.
    destruct (comments_not_protected m k Hin) as [H1 H2].
    by apply Hk.
Qed.

End GrowthStep.

(** X16.  No sequence of requests removes a document or rewrites an [_id] or
    a unique code: after the requests, each collection holds at least as
    many documents, and its [_id] column and its unique-code column are the
    old columns followed by the values of the documents created since.  The
    id counter never goes back. *)
Theorem identities_only_grow (rt : runtime) (omitUndefined : bool)
    (reqs : list (Z * operation * request)) (st : mem) (m : model) :
  let st' := serve rt omitUndefined reqs st in
  (next_id st ≤ next_id st')%nat ∧
  (length (coll m st) ≤ length (coll m st'))%nat ∧
  Forall (λ k, ∃ new, key_view k (coll m st') = (key_view k (coll m st) ++ new)%list)
    (protected m).
Proof.
  cbv zeta.
  assert ((next_id st ≤ next_id (serve rt omitUndefined reqs st))%nat ∧
          ∀ k, k ∈ protected m →
               ∃ new, key_view k (coll m (serve rt omitUndefined reqs st)) =
                        (key_view k (coll m st) ++ new)%list) as [Hn Hv].
  { revert st. induction reqs as [|[[now op] req] reqs IH]; intros st; simpl.
    - split; [done|]. intros k _. exists []. by rewrite app_nil_r.
    - destruct (handler_outcome (at_time rt now) omitUndefined op req st) as [Hst|[_ Hm]].
      + specialize (IH (handler (Store0 := MemStore (at_time rt now) omitUndefined)
                          (at_time rt now) op req st).2).
        by rewrite Hst in IH |- *.
      + apply mutation_views in Hm as [Hn1 Hv1].
        destruct (IH (handler (Store0 := MemStore (at_time rt now) omitUndefined)
                        (at_time rt now) op req st).2) as [Hn2 Hv2].
        split; [lia|]. intros k Hk.
        destruct (Hv1 m k Hk) as [new1 E1]. destruct (Hv2 k Hk) as [new2 E2].
        exists (new1 ++ new2)%list. by rewrite E2, E1, app_assoc. }
  split_and!; [done| |by apply Forall_forall].
  destruct (Hv "_id") as [new E]; [unfold protected; apply elem_of_cons; by left|].
  apply (f_equal length) in E. unfold key_view in E.
  rewrite length_app, !length_fmap in E. lia.
Qed.

(* ===================================================================== *)
(** ** 10. The further theorems on concrete requests *)
(* ===================================================================== *)

Lemma error_response_leaves_store_witness :
  (400 ≤ status (handler (Store0 := store0) rt0 CreateProject req_P1 mem_P1).1)%nat ∧
  (handler (Store0 := store0) rt0 CreateProject req_P1 mem_P1).2 = mem_P1.
Proof.
  split.
  - vm_compute. apply le_n.
  - apply (error_response_leaves_store rt0 true CreateProject req_P1 mem_P1).
    vm_compute. apply le_n.
Defined.

Lemma project_create_then_get_witness :
  ∃ (d : doc) (st' : mem),
    createProject (Store0 := store0) req_P1 empty_mem = (res_status 201 (DocBody d), st') ∧
    getProject (Store0 := store0) get_P1 st' = (res_status 200 (DocBody d), st') ∧
    listProjects (Store0 := store0) get_W1 st' = (res_status 200 (DocsBody [d]), st').
Proof.
  destruct (project_create_then_get rt0 true req_P1 empty_mem "W1" "P1" (BArr []))
    as (d & st' & H1 & H2 & H3 & _).
  - forall_compute.
  - unfold project_strings.
    repeat (apply Forall_cons_2;
              [hnf; eexists; split; [vm_compute; reflexivity|discriminate]|]).
    apply Forall_nil_2.
  - vm_compute; reflexivity.
  - vm_compute; reflexivity.
  - vm_compute; reflexivity.
  - apply Forall_nil_2.
  - exists d, st'. split_and!.
    + exact H1.
    + apply H2; vm_compute; reflexivity.
    + apply (H3 get_W1). vm_compute; reflexivity.
Defined.

Lemma task_create_then_get_witness :
  ∃ (d : doc) (st' : mem),
    createTask (Store0 := store0) req_T1 empty_mem = (res_status 201 (DocBody d), st') ∧
    getTask (Store0 := store0) get_T1 st' = (res_status 200 (DocBody d), st') ∧
    listTasks (Store0 := store0) get_W2 st' = (res_status 200 (DocsBody [d]), st').
Proof.
  destruct (task_create_then_get rt0 true req_T1 empty_mem "W2" "T1" 1735689600000%Z)
    as (d & st' & H1 & H2 & H3).
  - forall_compute.
  - unfold task_strings.
    repeat (apply Forall_cons_2;
              [hnf; eexists; split; [vm_compute; reflexivity|discriminate]|]).
    apply Forall_nil_2.
  - vm_compute; reflexivity.
  - vm_compute; reflexivity.
  - vm_compute; reflexivity.
  - apply Forall_nil_2.
  - exists d, st'. split_and!.
    + exact H1.
    + apply H2; vm_compute; reflexivity.
    + apply (H3 get_W2). vm_compute; reflexivity.
Defined.

Lemma get_missing_is_404_witness :
  getSpace (Store0 := store0) get_W2 mem_W1 =
    (res_status 404 (ErrorBody "Space not found" None), mem_W1) ∧
  getProject (Store0 := store0) get_P1 mem_P2 =
    (res_status 404 (ErrorBody "Project not found" None), mem_P2) ∧
  getTask (Store0 := store0) req_comment mem_T1 =
    (res_status 404 (ErrorBody "Task not found" None), mem_T1).
Proof.
  split_and!.
  - apply (get_missing_is_404 rt0 true get_W2 mem_W1). forall_compute.
  - apply (get_missing_is_404 rt0 true get_P1 mem_P2).
    apply Forall_cons_2; [|apply Forall_nil_2].
    intros [H _]. vm_compute in H. discriminate.
  - apply (get_missing_is_404 rt0 true req_comment mem_T1).
    apply Forall_cons_2; [|apply Forall_nil_2].
    intros [H _]. vm_compute in H. discriminate.
Defined.

Lemma duplicate_code_is_refused_witness :
  (∃ p, createProject (Store0 := store0) req_P1 mem_P1 = (res_status 400 p, mem_P1)) ∧
  (∃ r, createTask (Store0 := store0) req_T1 mem_T1 = (r, mem_T1) ∧
        (status r = 400 ∨ status r = 500)).
Proof.
  split.
  - apply (duplicate_code_is_refused rt0 true req_P1 mem_P1 "P1").
    + vm_compute; reflexivity.
    + apply Exists_cons_hd. vm_compute; reflexivity.
  - apply (duplicate_code_is_refused rt0 true req_T1 mem_T1 "T1").
    + vm_compute; reflexivity.
    + apply Exists_cons_hd. vm_compute; reflexivity.
Defined.

Lemma project_comment_is_appended_witness :
  ∃ p' : doc,
    addProjectComment (Store0 := store0) rt0 req_P1_comment mem_P1 =
      (res_status 200 (DocBody p'),
       {| spaces := []; projects := [p']; tasks := []; next_id := 2 |}) ∧
    p' !! "comments" =
      Some (BArr [BDoc [("comment", BStr "looks good"); ("date", BDate 1700000000000);
                        ("_id", BId 1)]]) ∧
    p' !! "name" = Some (BStr "Site").
Proof.
  destruct (project_comment_is_appended rt0 true req_P1_comment mem_P1 doc_P1
              (BStr "looks good") []) as [H1 H2].
  - vm_compute; reflexivity.
  - vm_compute; reflexivity.
  - vm_compute; reflexivity.
  - vm_compute; reflexivity.
  - vm_compute; reflexivity.
  - eexists. split_and!.
    + exact H1.
    + vm_compute; reflexivity.
    + rewrite (H2 "name") by discriminate. vm_compute; reflexivity.
Defined.




Lemma update_then_get_witness :
  (∃ (p' : doc) (st' : mem),
     updateProject (Store0 := store0) req_P1_done mem_P1 = (res_status 200 (DocBody p'), st') ∧
     getProject (Store0 := store0) req_P1_done st' = (res_status 200 (DocBody p'), st')) ∧
  (∃ (t' : doc) (st' : mem),
     updateTask (Store0 := store0) req_T1_done mem_T1 = (res_status 200 (DocBody t'), st') ∧
     getTask (Store0 := store0) req_T1_done st' = (res_status 200 (DocBody t'), st')).
Proof.
  split.
  - destruct (update_then_get rt0 true req_P1_done mem_P1) as [H _].
    apply (H doc_P1).
    + do 4 apply Exists_cons_tl. apply Exists_cons_hd. vm_compute; reflexivity.
    + vm_compute; reflexivity.
    + forall_compute.
  - destruct (update_then_get rt0 true req_T1_done mem_T1) as [_ H].
    apply (H doc_T1).
    + apply Exists_cons_tl, Exists_cons_hd. vm_compute; reflexivity.
    + vm_compute; reflexivity.
    + forall_compute.
Defined.

Lemma comment_then_get_witness :
  (∃ (p' : doc) (st' : mem),
     addProjectComment (Store0 := store0) rt0 req_P1_comment mem_P1 =
       (res_status 200 (DocBody p'), st') ∧
     getProject (Store0 := store0) req_P1_comment st' = (res_status 200 (DocBody p'), st') ∧
     p' !! "comments" =
       Some (BArr [project_comment (BStr "looks good") 1700000000000 1])) ∧
  (∃ (t' : doc) (st' : mem),
     addTaskComment (Store0 := store0) rt0 req_T1_comment mem_T1 =
       (res_status 200 (DocBody t'), st') ∧
     getTask (Store0 := store0) req_T1_comment st' = (res_status 200 (DocBody t'), st') ∧
     t' !! "comments" =
       Some (BArr [task_comment (BStr "ann") (BStr "hello") 1700000000000 1])).
Proof.
  split.
  - destruct (comment_then_get rt0 true req_P1_comment mem_P1) as [H _].
    apply (H doc_P1 (BStr "looks good") []); vm_compute; reflexivity.
  - destruct (comment_then_get rt0 true req_T1_comment mem_T1) as [_ H].
    apply (H doc_T1 (BStr "ann") (BStr "hello") []); try (vm_compute; reflexivity).
    + change mem_T1 with (serve rt0 true [(1700000000000%Z, CreateTask, req_T1)] empty_mem).
      apply serve_wf, wf_empty.
    + forall_compute.
Defined.

Lemma update_missing_is_404_witness :
  updateProject (Store0 := store0) req_P9_done mem_P1 =
    (res_status 404 (ErrorBody "Project not found" None), mem_P1) ∧
  updateTask (Store0 := store0) req_T9_done mem_T1 =
    (res_status 404 (ErrorBody "Task not found" None), mem_T1).
Proof.
  split.
  - apply (update_missing_is_404 rt0 true req_P9_done mem_P1).
    + do 4 apply Exists_cons_tl. apply Exists_cons_hd. vm_compute; reflexivity.
    + forall_compute.
    + apply Forall_cons_2; [|apply Forall_nil_2].
      intros [_ H]. vm_compute in H. discriminate.
  - apply (update_missing_is_404 rt0 true req_T9_done mem_T1).
    + apply Exists_cons_tl, Exists_cons_hd. vm_compute; reflexivity.
    + forall_compute.
    + apply Forall_cons_2; [|apply Forall_nil_2].
      intros [_ H]. vm_compute in H. discriminate.
Defined.
